(** * BlockWatcher runner: a shallow embedding of [blockwatcher_runner.py]

    The development follows the Python source function by function.
    Python values that the runner only passes along are kept as JSON
    values; dictionaries are insertion-ordered association lists with the
    update-in-place behaviour of Python's [dict]; [sys.exit] and caught
    exceptions are explicit outcomes; the database, the file system and
    the child process are explicit inputs. *)

From Stdlib Require Import List String Ascii ZArith Bool Lia DecimalString.
Import ListNotations.
Local Open Scope string_scope.
Local Open Scope Z_scope.
Local Open Scope list_scope.

Set Warnings "-register-all".

(* ================================================================== *)
(** ** Python values *)

(** Values as [json.load] and the database driver hand them to the runner.
    Numbers are the integers; the runner never computes with any other
    number. *)
Inductive json : Type :=
| JNull : json
| JBool : bool -> json
| JNum : Z -> json
| JStr : string -> json
| JArr : list json -> json
| JObj : list (string * json) -> json.

(** Python truthiness ([if x:], [x or y]). *)
Definition truthy (v : json) : bool :=
  match v with
  | JNull => false
  | JBool b => b
  | JNum z => negb (z =? 0)
  | JStr s => negb (String.eqb s "")
  | JArr l => match l with [] => false | _ => true end
  | JObj l => match l with [] => false | _ => true end
  end.

(** [a or b]. *)
Definition py_or (a b : json) : json := if truthy a then a else b.

(** [v == s] for a string literal [s]. *)
Definition is_str (v : json) (s : string) : bool :=
  match v with JStr t => String.eqb t s | _ => false end.

(** Lists and dicts are unhashable: using one as a key raises [TypeError]. *)
Definition hashable (v : json) : bool :=
  match v with JArr _ | JObj _ => false | _ => true end.

(** Equality of dictionary keys: Python identifies [True] with [1] and
    [False] with [0]; unhashable values never become keys. *)
Definition key_eqb (a b : json) : bool :=
  match a, b with
  | JNull, JNull => true
  | JBool x, JBool y => Bool.eqb x y
  | JBool x, JNum z | JNum z, JBool x => z =? (if x then 1 else 0)
  | JNum x, JNum y => x =? y
  | JStr x, JStr y => String.eqb x y
  | _, _ => false
  end.

(* ================================================================== *)
(** ** Python dictionaries *)

Definition pydict (K V : Type) : Type := list (K * V).

Section PyDict.
Context {K V : Type}.
Variable eqb : K -> K -> bool.

(** [d.get(k)] *)
Fixpoint dict_get (k : K) (d : pydict K V) : option V :=
  match d with
  | [] => None
  | (k', v) :: r => if eqb k' k then Some v else dict_get k r
  end.

(** [k in d] *)
Definition dict_mem (k : K) (d : pydict K V) : bool :=
  match dict_get k d with Some _ => true | None => false end.

(** [d[k] = v]: an existing key keeps its position (and its key object),
    a new key goes last. *)
Fixpoint dict_set (k : K) (v : V) (d : pydict K V) : pydict K V :=
  match d with
  | [] => [(k, v)]
  | (k', v') :: r =>
      if eqb k' k then (k', v) :: r else (k', v') :: dict_set k v r
  end.

(** [d.update(other)] *)
Definition dict_update (d other : pydict K V) : pydict K V :=
  fold_left (fun acc kv => dict_set (fst kv) (snd kv) acc) other d.

End PyDict.

Definition dict_keys {K V : Type} (d : pydict K V) : list K := map fst d.
Definition dict_values {K V : Type} (d : pydict K V) : list V := map snd d.

(** A JSON object, a Python [dict] with string keys. *)
Definition obj : Type := pydict string json.
Definition oget (k : string) (o : obj) : option json := dict_get String.eqb k o.
Definition oset (k : string) (v : json) (o : obj) : obj := dict_set String.eqb k v o.
Definition omem (k : string) (o : obj) : bool := dict_mem String.eqb k o.

(* ================================================================== *)
(** ** ProgressTracker: [monitor_blocks] *)

(** One entry of [self.stats]. [last_update] is the reading of the clock
    ([datetime.now()]) when the entry was last written. *)
Record NetStats : Type := mkStats {
  first_block : Z;
  last_block : Z;
  blocks_processed : Z;
  last_update : nat
}.

Definition Stats : Type := pydict string NetStats.

Definition stats_get (n : string) (s : Stats) : option NetStats :=
  dict_get String.eqb n s.
Definition stats_set (n : string) (v : NetStats) (s : Stats) : Stats :=
  dict_set String.eqb n v s.

(** One [*_last_block.txt] file met by the glob: the network its name stands
    for, what [int(f.read().strip())] gives ([None] when opening or parsing
    raises), and the clock at that moment. *)
Record MarkerRead : Type := mkRead {
  mr_network : string;
  mr_block : option Z;
  mr_now : nat
}.

(** One [*_missed_blocks.txt] file: the network, and the list
    [f.read().strip().split('\n')] ([None] when reading raises). *)
Record MissedRead : Type := mkMissed {
  ms_network : string;
  ms_lines : option (list string)
}.

(** Lines the runner prints, by the statement that prints them. *)
Inductive Line : Type :=
| LStatusHeader
| LProgress (network : string) (block delta total : Z)
| LReadError (network : string)
| LMissedBlocks (network : string) (count : nat)
| LFailedDbNetworks
| LNoMatchingDb (sel : list string)
| LNoConfigsDb
| LLoadedFromDb (slug : string)
| LDirNotFound
| LLoaded (slug : json)
| LFailedFile (stem : string)
| LNoMatching (sel : list string)
| LNoConfigs
| LLoadedCounts (monitors triggers : nat)
| LFailedDbMonitors
| LUsingConfigDir
| LNoActiveMonitors
| LCreatedConfigs
| LBinaryNotFound
| LBanner
| LUsingDatabase
| LUsingFiles
| LMonitoring (count : nat)
| LRunning
| LChildLine (text : string)
| LShuttingDown
| LError
| LGraceful
| LKilled
| LFinalHeader
| LFinalStats (network : string) (processed last : Z) (update : nat)
| LCheckingConfig
| LCleanedUp
| LConfigsKept.

(** The body of the loop over the marker files (source lines 545-577):
    state is [self.stats], output the lines printed. *)
Definition read_marker (verbose : bool) (st : Stats) (r : MarkerRead)
  : Stats * list Line :=
  match mr_block r with
  | None => (st, if verbose then [LReadError (mr_network r)] else [])
  | Some block_num =>
      match stats_get (mr_network r) st with
      | None =>
          (stats_set (mr_network r)
             (mkStats block_num block_num 0 (mr_now r)) st, [])
      | Some cur =>
          let old_block := last_block cur in
          if old_block <? block_num then
            let cur' := mkStats (first_block cur) block_num
                          (block_num - first_block cur) (mr_now r) in
            (stats_set (mr_network r) cur' st,
             [LProgress (mr_network r) block_num (block_num - old_block)
                (blocks_processed cur')])
          else (st, [])
      end
  end.

Fixpoint read_markers (verbose : bool) (st : Stats) (rs : list MarkerRead)
  : Stats * list Line :=
  match rs with
  | [] => (st, [])
  | r :: rs' =>
      let '(st1, out1) := read_marker verbose st r in
      let '(st2, out2) := read_markers verbose st1 rs' in
      (st2, out1 ++ out2)
  end.

(** The loop over the missed-block files (lines 580-589); it prints and
    leaves [self.stats] alone. *)
Definition check_missed (m : MissedRead) : list Line :=
  match ms_lines m with
  | Some (l0 :: rest) =>
      if negb (String.eqb l0 "")
      then [LMissedBlocks (ms_network m) (S (List.length rest))] else []
  | _ => []
  end.

(** What one pass of the [while self.running] loop finds in the data
    directory. *)
Record Poll : Type := mkPoll {
  poll_markers : list MarkerRead;
  poll_missed : list MissedRead
}.

Definition poll_once (verbose : bool) (st : Stats) (p : Poll)
  : Stats * list Line :=
  let '(st', out) := read_markers verbose st (poll_markers p) in
  (st', out ++ flat_map check_missed (poll_missed p)).

(** [monitor_blocks] over the passes made while [self.running] holds. *)
Fixpoint monitor_loop (verbose : bool) (st : Stats) (ps : list Poll)
  : Stats * list Line :=
  match ps with
  | [] => (st, [])
  | p :: ps' =>
      let '(st1, out1) := poll_once verbose st p in
      let '(st2, out2) := monitor_loop verbose st1 ps' in
      (st2, out1 ++ out2)
  end.

Definition monitor_blocks (verbose : bool) (st : Stats) (ps : list Poll)
  : Stats * list Line :=
  let '(st', out) := monitor_loop verbose st ps in
  (st', LStatusHeader :: out).

(* ================================================================== *)
(** ** Outcomes *)

(** A call either returns or ends the process ([sys.exit(code)]). *)
Inductive outcome (A : Type) : Type :=
| Returned (a : A)
| Exited (code : Z).
Arguments Returned {A} a.
Arguments Exited {A} code.

(** Code that may raise, inside a [try]: [None] is a raised exception. *)
Definition bind_opt {A B : Type} (x : option A) (k : A -> option B) : option B :=
  match x with Some a => k a | None => None end.

Notation "x <- e ;; k" := (bind_opt e (fun x => k))
  (at level 61, e at next level, right associativity).

(* ================================================================== *)
(** ** The runner object and the relational backend *)

(** The fields of [BlockWatcherRunner] set by [__init__] from the command
    line. [config_dir] and [data_dir] are the two [Path] objects as [str]
    renders them. *)
Record Runner : Type := mkRunner {
  networks : list string;
  verbose : bool;
  store_blocks : bool;
  use_database : bool;
  tenant_id : string;
  config_dir : string;
  data_dir : string
}.

(** Rows of the tables the runner selects from. Columns the runner only
    copies are JSON values; the JSON-array columns it iterates
    ([rpc_urls], [triggers]) are an array or NULL. *)
Record NetworkRow : Type := mkNetworkRow {
  nr_tenant_id : string;
  nr_active : bool;
  nr_deleted_at : option nat;
  nr_name : json;
  nr_slug : string;
  nr_network_type : json;
  nr_chain_id : json;
  nr_network_passphrase : json;
  nr_rpc_urls : option (list json);
  nr_block_time_ms : json;
  nr_confirmation_blocks : json;
  nr_cron_schedule : json;
  nr_max_past_blocks : json;
  nr_store_blocks : json
}.

Record MonitorRow : Type := mkMonitorRow {
  mon_tenant_id : string;
  mon_active : bool;
  mon_paused : bool;
  mon_deleted_at : option nat;
  mon_slug : string;
  mon_networks : json;
  mon_addresses : json;
  mon_match_functions : json;
  mon_match_events : json;
  mon_match_transactions : json;
  mon_trigger_conditions : json;
  mon_triggers : option (list json)
}.

Record TriggerRow : Type := mkTriggerRow {
  tr_tenant_id : string;
  tr_active : bool;
  tr_deleted_at : option nat;
  tr_id : string;              (* [str(row['id'])] *)
  tr_slug : string;
  tr_name : json;
  tr_trigger_type : json
}.

Record EmailRow : Type := mkEmailRow {
  em_trigger_id : string;
  em_host : json;
  em_port : json;
  em_username_value : json;
  em_password_value : json;
  em_sender : json;
  em_recipients : json;
  em_message_title : json;
  em_message_body : json
}.

Record WebhookRow : Type := mkWebhookRow {
  wh_trigger_id : string;
  wh_url_value : json;
  wh_method : json;
  wh_headers : json;
  wh_secret_value : json;
  wh_message_title : json;
  wh_message_body : json
}.

(** The statements the runner executes. *)
Inductive Stmt : Type :=
| SelNetworks | SelMonitors | SelTriggers | SelEmail | SelWebhook.

(** The database behind [self.db_url]: whether [psycopg2.connect]
    succeeds, which statements raise, and the tables. *)
Record Database : Type := mkDatabase {
  db_connects : bool;
  db_raises : Stmt -> bool;
  tbl_networks : list NetworkRow;
  tbl_monitors : list MonitorRow;
  tbl_triggers : list TriggerRow;
  tbl_email_triggers : list EmailRow;
  tbl_webhook_triggers : list WebhookRow
}.

(** A network configuration is a JSON object; the loaders return a dict
    from slug to configuration. *)
Definition NetworkMap : Type := pydict json obj.
Definition nets_get (k : json) (m : NetworkMap) : option obj := dict_get key_eqb k m.
Definition nets_set (k : json) (c : obj) (m : NetworkMap) : NetworkMap :=
  dict_set key_eqb k c m.

(* ================================================================== *)
(** ** ConfigSource, relational backend: [load_network_configs_from_db] *)

(** The canonical endpoint the three branches build (lines 113-140). *)
Definition rpc_entry (value weight : json) : json :=
  JObj [("type_", JStr "rpc");
        ("url", JObj [("type", JStr "plain"); ("value", value)]);
        ("weight", weight)].

(** [rpc.get('weight', 100)] *)
Definition weight_of (rpc : obj) : json :=
  match oget "weight" rpc with Some w => w | None => JNum 100 end.

(** The body of [for rpc in config['rpc_urls']] (lines 109-140). *)
Definition format_rpc_url (rpc : json) : json :=
  match rpc with
  | JObj o =>
      match oget "url" o with
      | Some url_data =>
          match url_data with
          | JObj u =>
              match oget "value" u with
              | Some value => rpc_entry value (weight_of o)
              | None => rpc_entry url_data (weight_of o)
              end
          | _ => rpc_entry url_data (weight_of o)
          end
      | None => rpc_entry rpc (JNum 100)
      end
  | _ => rpc_entry rpc (JNum 100)
  end.

(** Lines 106-141: the column is rewritten only when it is truthy. *)
Definition format_rpc_urls (col : option (list json)) : json :=
  match col with
  | None => JNull
  | Some [] => JArr []
  | Some l => JArr (map format_rpc_url l)
  end.

(** Lines 90-141: a row as a configuration. *)
Definition row_config (self : Runner) (row : NetworkRow) : obj :=
  [("name", nr_name row);
   ("slug", JStr (nr_slug row));
   ("network_type", nr_network_type row);
   ("chain_id", nr_chain_id row);
   ("network_passphrase", nr_network_passphrase row);
   ("rpc_urls", format_rpc_urls (nr_rpc_urls row));
   ("block_time_ms", nr_block_time_ms row);
   ("confirmation_blocks", nr_confirmation_blocks row);
   ("cron_schedule", nr_cron_schedule row);
   ("max_past_blocks", nr_max_past_blocks row);
   ("store_blocks", py_or (nr_store_blocks row) (JBool (store_blocks self)))].

Definition is_nil {A : Type} (l : list A) : bool :=
  match l with [] => true | _ => false end.

Definition no_date (d : option nat) : bool :=
  match d with None => true | Some _ => false end.

(** The WHERE clause of the networks query (lines 71-84). *)
Definition select_network (self : Runner) (row : NetworkRow) : bool :=
  String.eqb (nr_tenant_id row) (tenant_id self)
  && nr_active row
  && no_date (nr_deleted_at row)
  && (is_nil (networks self) || existsb (String.eqb (nr_slug row)) (networks self)).

(** The loop over the rows (lines 88-145). *)
Definition add_row (self : Runner) (acc : NetworkMap * list Line) (row : NetworkRow)
  : NetworkMap * list Line :=
  (nets_set (JStr (nr_slug row)) (row_config self row) (fst acc),
   snd acc ++ (if verbose self then [LLoadedFromDb (nr_slug row)] else [])).

Definition load_network_configs_from_db (self : Runner) (db : Database)
  : list Line * outcome NetworkMap :=
  if negb (db_connects db) || db_raises db SelNetworks then
    ([LFailedDbNetworks], Exited 1)
  else
    let rows := filter (select_network self) (tbl_networks db) in
    let '(nets, out) := fold_left (add_row self) rows ([], []) in
    if is_nil nets then
      (out ++ [if is_nil (networks self) then LNoConfigsDb
               else LNoMatchingDb (networks self)], Exited 1)
    else (out, Returned nets).

(* ================================================================== *)
(** ** ConfigSource, file backend: [load_network_configs_from_files] *)

(** A [*.json] file of [config/networks/]: its stem and what [json.load]
    gives ([None] when opening or parsing raises). *)
Record NetworkFile : Type := mkNetworkFile {
  nf_stem : string;
  nf_parsed : option json
}.

(** [slug in self.networks] *)
Definition in_selection (slug : json) (sel : list string) : bool :=
  existsb (is_str slug) sel.

(** What the body of the loop does with one file (lines 174-187). *)
Inductive FileStep : Type :=
| Loaded (slug : json) (config : obj)
| Filtered
| Failed.

Definition load_file (self : Runner) (f : NetworkFile) : FileStep :=
  match nf_parsed f with
  | Some (JObj config) =>
      let slug := match oget "slug" config with
                  | Some v => v
                  | None => JStr (nf_stem f)
                  end in
      if negb (is_nil (networks self)) && negb (in_selection slug (networks self))
      then Filtered
      else if hashable slug then Loaded slug config
      else Failed                      (* TypeError: unhashable key *)
  | Some _ => Failed                   (* AttributeError: no [get] *)
  | None => Failed
  end.

Definition add_file (self : Runner) (acc : NetworkMap * list Line) (f : NetworkFile)
  : NetworkMap * list Line :=
  match load_file self f with
  | Loaded slug config =>
      (nets_set slug config (fst acc),
       snd acc ++ (if verbose self then [LLoaded slug] else []))
  | Filtered => acc
  | Failed => (fst acc, snd acc ++ [LFailedFile (nf_stem f)])
  end.

(** [network_dir] is [None] when [config/networks] does not exist, else
    the files in the order the glob yields them. *)
Definition load_network_configs_from_files (self : Runner)
    (network_dir : option (list NetworkFile)) : list Line * outcome NetworkMap :=
  match network_dir with
  | None => ([LDirNotFound], Exited 1)
  | Some files =>
      let '(nets, out) := fold_left (add_file self) files ([], []) in
      if is_nil nets then
        (out ++ [if is_nil (networks self) then LNoConfigs
                 else LNoMatching (networks self)], Exited 1)
      else (out, Returned nets)
  end.

(** [load_network_configs] *)
Definition load_network_configs (self : Runner) (db : Database)
    (network_dir : option (list NetworkFile)) : list Line * outcome NetworkMap :=
  if use_database self then load_network_configs_from_db self db
  else load_network_configs_from_files self network_dir.

(* ================================================================== *)
(** ** ConfigSource: [load_monitor_and_trigger_configs_from_db] *)

(** [triggers_map]: from a reference (an id or a slug) to the trigger
    found for it, [None] until it is found. *)
Definition TriggerMap : Type := pydict json (option obj).

Definition opt_arr (col : option (list json)) : json :=
  match col with Some l => JArr l | None => JNull end.

(** Lines 219-231. *)
Definition monitor_config (row : MonitorRow) : obj :=
  [("name", JStr (mon_slug row));
   ("paused", JBool (mon_paused row));
   ("networks", mon_networks row);
   ("addresses", mon_addresses row);
   ("match_conditions",
      JObj [("functions", mon_match_functions row);
            ("events", mon_match_events row);
            ("transactions", mon_match_transactions row)]);
   ("trigger_conditions", mon_trigger_conditions row);
   ("triggers", opt_arr (mon_triggers row))].

(** The WHERE clause of the monitors query (lines 208-214). *)
Definition select_monitor (self : Runner) (row : MonitorRow) : bool :=
  String.eqb (mon_tenant_id row) (tenant_id self)
  && mon_active row
  && negb (mon_paused row)
  && no_date (mon_deleted_at row).

(** [if k not in triggers_map: triggers_map[k] = None] *)
Definition note_ref (k : json) (tm : TriggerMap) : TriggerMap :=
  if dict_mem key_eqb k tm then tm else dict_set key_eqb k None tm.

(** The body of [for trigger_ref in row['triggers']] (lines 236-244);
    an unhashable id raises. *)
Definition collect_ref (tm : TriggerMap) (trigger_ref : json) : option TriggerMap :=
  match trigger_ref with
  | JObj o =>
      match oget "id" o with
      | Some trigger_id =>
          if hashable trigger_id then Some (note_ref trigger_id tm) else None
      | None => Some tm
      end
  | JStr _ => Some (note_ref trigger_ref tm)
  | _ => Some tm
  end.

Fixpoint collect_refs (tm : TriggerMap) (refs : list json) : option TriggerMap :=
  match refs with
  | [] => Some tm
  | r :: rs => tm' <- collect_ref tm r ;; collect_refs tm' rs
  end.

(** The loop over the monitor rows (lines 218-244); a NULL [triggers]
    column raises when iterated. *)
Fixpoint collect_monitors (rows : list MonitorRow) (acc : list obj * TriggerMap)
  : option (list obj * TriggerMap) :=
  match rows with
  | [] => Some acc
  | row :: rest =>
      refs <- mon_triggers row ;;
      tm <- collect_refs (snd acc) refs ;;
      collect_monitors rest (fst acc ++ [monitor_config row], tm)
  end.

(** [slug IN (refs)], a comparison of text: among the parameters the
    statement accepts (see [text_param]) only a string can equal a slug or an
    id; NULL equals nothing. *)
Definition ref_in (s : string) (refs : list json) : bool :=
  existsb (fun r => is_str r s) refs.

(** The parameters the triggers query accepts in its two [IN] lists: the
    driver passes a string as text and [None] as NULL; a number or a boolean
    is passed as a literal of its own type, for which the comparison with
    [slug] and [id::text] is an error of the statement. *)
Definition text_param (r : json) : bool :=
  match r with JStr _ | JNull => true | _ => false end.

(** The WHERE clause of the triggers query (lines 252-258). *)
Definition select_trigger (self : Runner) (refs : list json) (row : TriggerRow) : bool :=
  (ref_in (tr_slug row) refs || ref_in (tr_id row) refs)
  && String.eqb (tr_tenant_id row) (tenant_id self)
  && tr_active row
  && no_date (tr_deleted_at row).

(** Lines 267-272: the record a trigger row starts as. *)
Definition flat_trigger (row : TriggerRow) : obj :=
  [("id", JStr (tr_id row));
   ("name", tr_name row);
   ("slug", JStr (tr_slug row));
   ("type", tr_trigger_type row)].

Definition plain (v : json) : json := JObj [("type", JStr "plain"); ("value", v)].

(** Lines 282-305. *)
Definition email_trigger (row : TriggerRow) (e : EmailRow) : obj :=
  [(tr_slug row,
    JObj [("name", tr_name row);
          ("trigger_type", JStr "email");
          ("config",
             JObj [("host", em_host e);
                   ("port", em_port e);
                   ("username", plain (em_username_value e));
                   ("password", plain (em_password_value e));
                   ("sender", em_sender e);
                   ("recipients", em_recipients e);
                   ("message", JObj [("title", em_message_title e);
                                     ("body", em_message_body e)])])])].

(** Lines 314-335. *)
Definition webhook_trigger (row : TriggerRow) (w : WebhookRow) : obj :=
  [(tr_slug row,
    JObj [("name", tr_name row);
          ("trigger_type", JStr "webhook");
          ("config",
             JObj [("url", plain (wh_url_value w));
                   ("method", wh_method w);
                   ("headers", py_or (wh_headers w) (JObj []));
                   ("secret", if truthy (wh_secret_value w)
                              then plain (wh_secret_value w) else JNull);
                   ("message", JObj [("title", wh_message_title w);
                                     ("body", wh_message_body w)])])])].

(** [SELECT * FROM email_triggers WHERE trigger_id = %s] and [fetchone]. *)
Definition fetch_email (db : Database) (trigger_id : string) : option (option EmailRow) :=
  if db_raises db SelEmail then None
  else Some (find (fun e => String.eqb (em_trigger_id e) trigger_id)
               (tbl_email_triggers db)).

Definition fetch_webhook (db : Database) (trigger_id : string)
  : option (option WebhookRow) :=
  if db_raises db SelWebhook then None
  else Some (find (fun w => String.eqb (wh_trigger_id w) trigger_id)
               (tbl_webhook_triggers db)).

(** Lines 263-335: the configuration built for one trigger row. *)
Definition trigger_config (db : Database) (row : TriggerRow) : option obj :=
  if is_str (tr_trigger_type row) "email" then
    email_config <- fetch_email db (tr_id row) ;;
    Some (match email_config with
          | Some e => email_trigger row e
          | None => flat_trigger row
          end)
  else if is_str (tr_trigger_type row) "webhook" then
    webhook_config <- fetch_webhook db (tr_id row) ;;
    Some (match webhook_config with
          | Some w => webhook_trigger row w
          | None => flat_trigger row
          end)
  else Some (flat_trigger row).

(** The loop over the trigger rows (lines 262-339). *)
Fixpoint resolve_triggers (db : Database) (rows : list TriggerRow) (tm : TriggerMap)
  : option TriggerMap :=
  match rows with
  | [] => Some tm
  | row :: rest =>
      cfg <- trigger_config db row ;;
      resolve_triggers db rest
        (dict_set key_eqb (JStr (tr_slug row)) (Some cfg)
           (dict_set key_eqb (JStr (tr_id row)) (Some cfg) tm))
  end.

(** [[t for t in triggers_map.values() if t is not None]] *)
Fixpoint present {A : Type} (l : list (option A)) : list A :=
  match l with
  | [] => []
  | Some a :: r => a :: present r
  | None :: r => present r
  end.

(** The [try] block (lines 204-351). *)
Definition load_monitors_try (self : Runner) (db : Database)
  : option (list obj * list obj) :=
  if negb (db_connects db) || db_raises db SelMonitors then None
  else
    let monitor_rows := filter (select_monitor self) (tbl_monitors db) in
    acc <- collect_monitors monitor_rows ([], []) ;;
    let '(monitors, triggers_map) := acc in
    tm <- (if is_nil triggers_map then Some triggers_map
           else if db_raises db SelTriggers
                   || negb (forallb text_param (dict_keys triggers_map)) then None
           else
             let trigger_refs := dict_keys triggers_map in
             resolve_triggers db
               (filter (select_trigger self trigger_refs) (tbl_triggers db))
               triggers_map) ;;
    Some (monitors, present (dict_values tm)).

Definition load_monitor_and_trigger_configs_from_db (self : Runner) (db : Database)
  : list Line * outcome (list obj * list obj) :=
  match load_monitors_try self db with
  | Some (monitors, triggers) =>
      (if verbose self
       then [LLoadedCounts (List.length monitors) (List.length triggers)] else [],
       Returned (monitors, triggers))
  | None => ([LFailedDbMonitors], Returned ([], []))
  end.

(* ================================================================== *)
(** ** ConfigSynthesizer: [create_minimal_configs] *)

(** [open(config_path / dir / name, 'w')] followed by [json.dump(content, f)]:
    the call, by the path components it is given. Whether the [open] raises
    is for the world to say ([w_open_raises] below), and a name that holds a
    path separator denotes a file elsewhere than directly in [dir]. *)
Record FileWrite : Type := mkWrite {
  fw_dir : string;
  fw_name : string;
  fw_content : json
}.

(** [str(k)] for a dictionary key, as the f-string [f"{slug}.json"] takes
    it (lists and dicts are never keys). *)
Definition py_str (k : json) : string :=
  match k with
  | JStr s => s
  | JNull => "None"
  | JBool true => "True"
  | JBool false => "False"
  | JNum z => NilZero.string_of_int (Z.to_int z)
  | JArr _ | JObj _ => ""
  end.

(** Lines 389-391: the copy of a network's configuration that is written. *)
Definition network_copy (self : Runner) (config : obj) : obj :=
  let config_copy := config in
  if store_blocks self then oset "store_blocks" (JBool true) config_copy
  else config_copy.

(** Lines 388-394. *)
Definition write_networks (self : Runner) (nets : NetworkMap) : list FileWrite :=
  map (fun kv => mkWrite "networks" (py_str (fst kv) ++ ".json")
                   (JObj (network_copy self (snd kv)))) nets.

(** [[slug for slug, cfg in networks.items() if cfg.get('network_type') == t]] *)
Definition networks_of_type (t : string) (nets : NetworkMap) : list json :=
  map fst (filter (fun kv => match oget "network_type" (snd kv) with
                             | Some v => is_str v t
                             | None => false
                             end) nets).

(** Lines 450-467. *)
Definition evm_monitor (evm_networks : list json) : json :=
  JObj [("name", JStr "blockwatcher_evm");
        ("paused", JBool false);
        ("networks", JArr evm_networks);
        ("addresses",
           JArr [JObj [("address", JStr "0x0000000000000000000000000000000000000000")]]);
        ("match_conditions",
           JObj [("functions", JArr []);
                 ("events", JArr []);
                 ("transactions",
                    JArr [JObj [("status", JStr "Success"); ("expression", JNull)]])]);
        ("trigger_conditions", JArr []);
        ("triggers", JArr [])].

(** Lines 473-490. *)
Definition stellar_monitor (stellar_networks : list json) : json :=
  JObj [("name", JStr "blockwatcher_stellar");
        ("paused", JBool false);
        ("networks", JArr stellar_networks);
        ("addresses",
           JArr [JObj [("address",
                        JStr "GAAAAAAAAAAAAAAAAAAAAAAAAAAAAAAAAAAAAAAAAAAAAAAAAAAAAWHF")]]);
        ("match_conditions",
           JObj [("functions", JArr []);
                 ("events", JArr []);
                 ("transactions",
                    JArr [JObj [("status", JStr "Success"); ("expression", JNull)]])]);
        ("trigger_conditions", JArr []);
        ("triggers", JArr [])].

(** [_create_minimal_monitor_configs] *)
Definition _create_minimal_monitor_configs (nets : NetworkMap) : list FileWrite :=
  let evm_networks := networks_of_type "EVM" nets in
  let stellar_networks := networks_of_type "Stellar" nets in
  (if is_nil evm_networks then []
   else [mkWrite "monitors" "blockwatcher_evm.json" (evm_monitor evm_networks)])
  ++
  (if is_nil stellar_networks then []
   else [mkWrite "monitors" "blockwatcher_stellar.json"
           (stellar_monitor stellar_networks)]).

(** Lines 402-405; every monitor built from a row has a ['name']. *)
Definition write_monitor (monitor : obj) : FileWrite :=
  mkWrite "monitors"
    (match oget "name" monitor with Some n => py_str n | None => "" end ++ ".json")
    (JObj monitor).

(** Lines 415-419: the triggers merged into one mapping. *)
Definition merge_triggers (triggers : list obj) : obj :=
  fold_left (fun all_triggers trigger => dict_update String.eqb all_triggers trigger)
    triggers [].

(** Lines 413-427. *)
Definition write_triggers (triggers : list obj) : list FileWrite :=
  if is_nil triggers then [mkWrite "triggers" "empty.json" (JObj [])]
  else [mkWrite "triggers" "database_triggers.json" (JObj (merge_triggers triggers))].

(** What [create_minimal_configs] leaves behind: the directory it
    returns, whether that is [self.temp_dir], the files written in order and
    the lines printed. *)
Record Synthesis : Type := mkSynthesis {
  sy_path : string;
  sy_temp : bool;
  sy_writes : list FileWrite;
  sy_out : list Line
}.

(** [tmp] is the name [tempfile.TemporaryDirectory] picks. *)
Definition create_minimal_configs (self : Runner) (db : Database) (tmp : string)
    (nets : NetworkMap) : Synthesis :=
  if use_database self then
    let '(out, res) := load_monitor_and_trigger_configs_from_db self db in
    let '(monitors, triggers) :=
      match res with Returned r => r | Exited _ => ([], []) end in
    mkSynthesis (config_dir self) false
      (write_networks self nets
       ++ (if is_nil monitors then _create_minimal_monitor_configs nets
           else map write_monitor monitors)
       ++ write_triggers triggers)
      ((if verbose self then [LUsingConfigDir] else [])
       ++ out
       ++ (if is_nil monitors then [LNoActiveMonitors] else [])
       ++ (if verbose self then [LCreatedConfigs] else []))
  else
    mkSynthesis tmp true
      (write_networks self nets
       ++ _create_minimal_monitor_configs nets
       ++ [mkWrite "triggers" "empty.json" (JObj [])])
      (if verbose self then [LCreatedConfigs] else []).

(** [create_minimal_configs] as the sequence of what it does, a line
    printed or a file opened and written, in the order of the source; [run]
    follows it to find where an [open] that raises stops the synthesis. *)
Inductive Step : Type :=
| Say (l : Line)
| Put (f : FileWrite).

Definition synthesis_steps (self : Runner) (db : Database) (nets : NetworkMap)
  : list Step :=
  if use_database self then
    (if verbose self then [Say LUsingConfigDir] else [])
    ++ map Put (write_networks self nets)
    ++ (let '(out, res) := load_monitor_and_trigger_configs_from_db self db in
        let '(monitors, triggers) :=
          match res with Returned r => r | Exited _ => ([], []) end in
        map Say out
        ++ (if is_nil monitors
            then Say LNoActiveMonitors :: map Put (_create_minimal_monitor_configs nets)
            else map Put (map write_monitor monitors))
        ++ map Put (write_triggers triggers))
    ++ (if verbose self then [Say LCreatedConfigs] else [])
  else
    map Put (write_networks self nets)
    ++ map Put (_create_minimal_monitor_configs nets)
    ++ [Put (mkWrite "triggers" "empty.json" (JObj []))]
    ++ (if verbose self then [Say LCreatedConfigs] else []).

(** The steps done before the first [open] that raises: the lines printed
    and the files written. *)
Fixpoint perform (raises : string -> string -> bool) (steps : list Step)
  : list Line * list FileWrite :=
  match steps with
  | [] => ([], [])
  | Say l :: rest =>
      let '(lines, writes) := perform raises rest in (l :: lines, writes)
  | Put f :: rest =>
      if raises (fw_dir f) (fw_name f) then ([], [])
      else let '(lines, writes) := perform raises rest in (lines, f :: writes)
  end.

(** No [open] of the list raises. *)
Definition all_open (raises : string -> string -> bool) (ws : list FileWrite) : bool :=
  forallb (fun f => negb (raises (fw_dir f) (fw_name f))) ws.

(** Every key is a string, as [', '.join(networks.keys())] needs. *)
Definition all_strings (ks : list json) : bool :=
  forallb (fun k => match k with JStr _ => true | _ => false end) ks.

(* ================================================================== *)
(** ** ProcessSupervisor: [build_command], [shutdown], [cleanup], [run] *)

(** Which of the three candidate paths exist. *)
Record Binaries : Type := mkBinaries {
  release_exists : bool;
  debug_exists : bool;
  cwd_exists : bool
}.

Definition Environ : Type := pydict string string.

(** [build_command]: the command and the child's environment. The
    command is [str(binary_path)], and [str] of a [Path] written with a
    leading [./] does not keep it. *)
Definition build_command (self : Runner) (bins : Binaries) (environ : Environ)
    (config_path : string) : list Line * outcome (list string * Environ) :=
  let binary_path :=
    if release_exists bins then Some "target/release/openzeppelin-monitor"
    else if debug_exists bins then Some "target/debug/openzeppelin-monitor"
    else if cwd_exists bins then Some "openzeppelin-monitor"
    else None in
  match binary_path with
  | None => ([LBinaryNotFound], Exited 1)
  | Some path =>
      let env := dict_set String.eqb "LOG_DATA_DIR" (data_dir self)
                   (dict_set String.eqb "CONFIG_DIR" config_path environ) in
      (if verbose self then [LCheckingConfig] else [],
       Returned ([path],
                 dict_set String.eqb "RUST_LOG"
                   (if verbose self then "info" else "warn") env))
  end.

(** The states of a run as the design names them; the source keeps
    [self.running] and [self.process], the state is the point control has
    reached. *)
Inductive RunState : Type :=
| Idle | Starting | Running | Stopping | Stopped | Killed.

Inductive Signal : Type := SIGTERM | SIGKILL.

(** How the child answers [terminate()]: the milliseconds it then takes
    to exit, [None] if it never does. *)
Definition Child : Type := option N.

(** [self.process.wait(timeout=t)] with [t] in seconds: [true] when the
    child has exited by the deadline, [false] for [TimeoutExpired]. *)
Definition wait (child : Child) (timeout : N) : bool :=
  match child with
  | Some d => (d <=? 1000 * timeout)%N
  | None => false
  end.

Record Shutdown : Type := mkShutdown {
  sd_state : RunState;
  sd_signals : list Signal;
  sd_out : list Line
}.

(** Lines 684-692. *)
Definition final_statistics (stats : Stats) : list Line :=
  if is_nil stats then []
  else LFinalHeader
       :: map (fun kv => LFinalStats (fst kv) (blocks_processed (snd kv))
                           (last_block (snd kv)) (last_update (snd kv))) stats.

(** Lines 670-681, for a process that was started. *)
Definition stop_process (child : Child) : Shutdown :=
  (* terminate(): Running -> Stopping *)
  if wait child 10 then mkShutdown Stopped [SIGTERM] [LGraceful]
  else mkShutdown Killed [SIGTERM; SIGKILL] [LKilled].

(** [shutdown]: [process] is [self.process], [None] when [Popen] has not
    returned. *)
Definition shutdown (process : option Child) (stats : Stats) : Shutdown :=
  match process with
  | Some child =>
      let s := stop_process child in
      mkShutdown (sd_state s) (sd_signals s) (sd_out s ++ final_statistics stats)
  | None => mkShutdown Idle [] (final_statistics stats)
  end.

(** [cleanup] *)
Definition cleanup (self : Runner) (temp : bool) : list Line :=
  if temp then (if verbose self then [LCleanedUp] else [])
  else if use_database self && verbose self then [LConfigsKept] else [].

(** ['ERROR' in line or 'WARN' in line] *)
Definition contains (needle line : string) : bool :=
  match index 0 needle line with Some _ => true | None => false end.

(** Lines 648-651: the child's output is piped and filtered unless verbose. *)
Definition relay (self : Runner) (lines : list string) : list Line :=
  if verbose self then []
  else map LChildLine
         (filter (fun line => contains "ERROR" line || contains "WARN" line) lines).

(** How the [try] block of [run] ends. *)
Inductive Ending : Type :=
| SpawnFails                       (* [Popen] raises *)
| ChildExits (code : Z)            (* [self.process.wait()] returns *)
| Interrupted (child : Child)      (* [KeyboardInterrupt] while the child runs *)
| Crashed (child : Child).         (* another exception while the child runs *)

(** Everything outside the runner that a run meets. [w_open_raises dir
    name] says whether opening [config_path / dir / name] for writing raises
    (a missing parent directory, as for a name with a separator in the fresh
    temporary directory; a name the file system refuses). [w_polls] are the
    passes the tracker thread has made when the run ends, [w_child_lines]
    the lines read from the child by then. *)
Record World : Type := mkWorld {
  w_db : Database;
  w_network_dir : option (list NetworkFile);
  w_tmp : string;
  w_open_raises : string -> string -> bool;
  w_bins : Binaries;
  w_environ : Environ;
  w_child_lines : list string;
  w_polls : list Poll;
  w_ending : Ending
}.

(** What a run leaves: the status the process ends with, the lines of the
    main thread and of the tracker thread, the files written and the
    signals sent to the child. *)
Record RunResult : Type := mkResult {
  rr_status : Z;
  rr_out : list Line;
  rr_tracker_out : list Line;
  rr_writes : list FileWrite;
  rr_signals : list Signal
}.

(** Lines 628-664: the [try] statement. *)
Definition supervise (self : Runner) (w : World) (temp : bool)
  : Z * list Line * list Line * list Signal :=
  let '(stats, tracker_out) := monitor_blocks (verbose self) [] (w_polls w) in
  match w_ending w with
  | ChildExits _ =>
      (0, relay self (w_child_lines w) ++ cleanup self temp, tracker_out, [])
  | Interrupted child =>
      let s := shutdown (Some child) stats in
      (0, relay self (w_child_lines w) ++ [LShuttingDown] ++ sd_out s
          ++ cleanup self temp, tracker_out, sd_signals s)
  | Crashed child =>
      let s := shutdown (Some child) stats in
      (1, relay self (w_child_lines w) ++ [LError] ++ sd_out s
          ++ cleanup self temp, tracker_out, sd_signals s)
  | SpawnFails =>
      let s := shutdown None stats in
      (1, [LError] ++ sd_out s ++ cleanup self temp, tracker_out, sd_signals s)
  end.

(** [run], and the status [main] ends the process with: [0] when [run]
    returns, the argument of [sys.exit] otherwise, and [1] when an exception
    leaves [run]. Two exceptions can, before the [try] statement:
    [', '.join(networks.keys())] (line 615) raises [TypeError] when a slug is
    not a string, and an [open] of the synthesis (line 618) may raise. *)
Definition run (self : Runner) (w : World) : RunResult :=
  let out0 := [LBanner; if use_database self then LUsingDatabase else LUsingFiles] in
  match load_network_configs self (w_db w) (w_network_dir w) with
  | (out1, Exited code) => mkResult code (out0 ++ out1) [] [] []
  | (out1, Returned nets) =>
      if negb (all_strings (dict_keys nets)) then
        mkResult 1 (out0 ++ out1) [] [] []
      else
      let out2 := out0 ++ out1 ++ [LMonitoring (List.length nets)] in
      let sy := create_minimal_configs self (w_db w) (w_tmp w) nets in
      if negb (all_open (w_open_raises w) (sy_writes sy)) then
        let '(lines, writes) :=
          perform (w_open_raises w) (synthesis_steps self (w_db w) nets) in
        mkResult 1 (out2 ++ lines) [] writes []
      else
      match build_command self (w_bins w) (w_environ w) (sy_path sy) with
      | (out3, Exited code) =>
          mkResult code (out2 ++ sy_out sy ++ out3) [] (sy_writes sy) []
      | (out3, Returned _) =>
          let '(status, out4, tracker_out, signals) :=
            supervise self w (sy_temp sy) in
          mkResult status (out2 ++ sy_out sy ++ out3 ++ [LRunning] ++ out4)
            tracker_out (sy_writes sy) signals
      end
  end.

(* ================================================================== *)
(** ** Properties stated about the runner, and sample inputs *)

(** The relation the tracker keeps between the three counters of a
    network. *)
Definition stats_ok (s : NetStats) : Prop :=
  blocks_processed s = last_block s - first_block s.

Definition all_ok (st : Stats) : Prop := Forall (fun kv => stats_ok (snd kv)) st.

(** Three passes over one marker file: 100, 105, then a stale 103. *)
Definition polls_eth : list Poll :=
  [mkPoll [mkRead "eth" (Some 100) 1] [];
   mkPoll [mkRead "eth" (Some 105) 2] [];
   mkPoll [mkRead "eth" (Some 103) 3] []].

(** Some network of [nets] has [network_type == t]. *)
Definition type_present (t : string) (nets : NetworkMap) : bool :=
  negb (is_nil (networks_of_type t nets)).

(** The network types met in [nets], each once. *)
Definition distinct_types (nets : NetworkMap) : list string :=
  nodup string_dec
    (flat_map (fun kv => match oget "network_type" (snd kv) with
                         | Some (JStr t) => [t]
                         | _ => []
                         end) nets).

(** The files written under [monitors/]. *)
Definition monitor_writes (ws : list FileWrite) : list FileWrite :=
  filter (fun w => String.eqb (fw_dir w) "monitors") ws.




(** A file-backed runner with default options, and networks of three
    families. *)
Definition runner_files : Runner :=
  mkRunner [] false false false "tenant" "config" "data".

Definition nets_mixed : NetworkMap :=
  [(JStr "eth", [("slug", JStr "eth"); ("network_type", JStr "EVM")]);
   (JStr "xlm", [("slug", JStr "xlm"); ("network_type", JStr "Stellar")]);
   (JStr "night", [("slug", JStr "night"); ("network_type", JStr "Midnight")])].

(** A database that is up and holds nothing. *)
Definition db_empty : Database :=
  mkDatabase true (fun _ => false) [] [] [] [] [].

(** No monitors come from outside: the file backend never supplies any,
    the relational backend supplied none. *)
Definition no_monitors_supplied (self : Runner) (db : Database) : Prop :=
  use_database self = false
  \/ exists out triggers,
       load_monitor_and_trigger_configs_from_db self db
       = (out, Returned ([], triggers)).

(** A runner asked to store blocks, and a network that does not. *)
Definition runner_store : Runner :=
  mkRunner [] false true false "tenant" "config" "data".

Definition nets_eth : NetworkMap :=
  [(JStr "eth", [("slug", JStr "eth"); ("network_type", JStr "EVM");
                 ("store_blocks", JBool false)])].

(** What [run] has done when it enters its [try] statement: the lines
    printed so far and the synthesis; [None] when loading, an exception or
    [build_command] has ended the process before. *)
Definition startup (self : Runner) (w : World) : option (list Line * Synthesis) :=
  match load_network_configs self (w_db w) (w_network_dir w) with
  | (out1, Returned nets) =>
      let sy := create_minimal_configs self (w_db w) (w_tmp w) nets in
      if negb (all_strings (dict_keys nets)) then None
      else if negb (all_open (w_open_raises w) (sy_writes sy)) then None
      else
      match build_command self (w_bins w) (w_environ w) (sy_path sy) with
      | (out3, Returned _) =>
          Some ([LBanner; if use_database self then LUsingDatabase else LUsingFiles]
                ++ out1 ++ [LMonitoring (List.length nets)]
                ++ sy_out sy ++ out3 ++ [LRunning], sy)
      | (_, Exited _) => None
      end
  | (_, Exited _) => None
  end.

(** The same world with another ending. *)
Definition with_ending (w : World) (e : Ending) : World :=
  mkWorld (w_db w) (w_network_dir w) (w_tmp w) (w_open_raises w) (w_bins w)
    (w_environ w) (w_child_lines w) (w_polls w) e.

(** The lines of the final statistics report. *)
Definition is_report_line (l : Line) : bool :=
  match l with
  | LFinalHeader | LFinalStats _ _ _ _ => true
  | _ => false
  end.


(** One network file, the release binary, a child that logs two lines,
    and the three passes of [polls_eth]. *)
Definition files_eth : list NetworkFile :=
  [mkNetworkFile "eth" (Some (JObj [("slug", JStr "eth"); ("network_type", JStr "EVM")]))].

Definition world_eth (e : Ending) : World :=
  mkWorld db_empty (Some files_eth) "/tmp/blockwatcher_x" (fun _ _ => false)
    (mkBinaries true false false)
    [] ["INFO started"; "ERROR rpc timeout"] polls_eth e.

(** The rows of the tenant that are active and not deleted: the part of
    the WHERE clause that does not depend on the selection. *)
Definition tenant_active (self : Runner) (row : NetworkRow) : bool :=
  String.eqb (nr_tenant_id row) (tenant_id self)
  && nr_active row
  && no_date (nr_deleted_at row).

Definition active_rows (self : Runner) (db : Database) : list NetworkRow :=
  filter (tenant_active self) (tbl_networks db).

(** A row as an entry of the result. *)
Definition row_entry (self : Runner) (row : NetworkRow) : json * obj :=
  (JStr (nr_slug row), row_config self row).

(** The slug of a network file that parses to an object: its [slug]
    field, or the file stem. *)
Definition file_slug (f : NetworkFile) : option json :=
  match nf_parsed f with
  | Some (JObj config) =>
      Some (match oget "slug" config with Some v => v | None => JStr (nf_stem f) end)
  | _ => None
  end.

(** A network file as an entry of the result: it parses to an object and
    its slug can be a key. *)
Definition file_entry (f : NetworkFile) : option (json * obj) :=
  match nf_parsed f with
  | Some (JObj config) =>
      let slug := match oget "slug" config with
                  | Some v => v
                  | None => JStr (nf_stem f)
                  end in
      if hashable slug then Some (slug, config) else None
  | _ => None
  end.

(** No two entries have the same key. *)
Fixpoint distinct_keys (l : list (json * obj)) : Prop :=
  match l with
  | [] => True
  | kv :: r =>
      (forall kv', In kv' r -> key_eqb (fst kv) (fst kv') = false) /\ distinct_keys r
  end.

(** Setting a list of entries one after the other. *)
Definition set_all (m : NetworkMap) (kvs : list (json * obj)) : NetworkMap :=
  fold_left (fun acc kv => nets_set (fst kv) (snd kv) acc) kvs m.

(** The entry the loop body adds for a file, under the runner's selection. *)
Definition loaded_entry (self : Runner) (f : NetworkFile) : option (json * obj) :=
  match load_file self f with
  | Loaded slug config => Some (slug, config)
  | _ => None
  end.

(** The diagnostics of a load that found no network. *)
Definition is_not_found (l : Line) : bool :=
  match l with
  | LNoMatchingDb _ | LNoConfigsDb | LDirNotFound | LNoMatching _ | LNoConfigs => true
  | _ => false
  end.

(** The design's [NotFoundError]: the runner prints the diagnostic and
    ends the process with status 1. *)
Definition not_found (r : list Line * outcome NetworkMap) : Prop :=
  snd r = Exited 1 /\ existsb is_not_found (fst r) = true.

Definition db_up (db : Database) : Prop :=
  db_connects db = true /\ db_raises db SelNetworks = false.

(** A database with two networks of the tenant and one of another, and a
    runner on it. *)
Definition row_eth : NetworkRow :=
  mkNetworkRow "tenant" true None (JStr "Ethereum") "eth" (JStr "EVM") (JNum 1) JNull
    (Some [JStr "https://eth.example"]) (JNum 12000) (JNum 12) (JStr "0 * * * * *")
    (JNum 100) (JBool false).

Definition row_xlm : NetworkRow :=
  mkNetworkRow "tenant" true None (JStr "Stellar") "xlm" (JStr "Stellar") JNull
    (JStr "Public Global Stellar Network") None (JNum 5000) (JNum 2)
    (JStr "0 * * * * *") (JNum 50) (JBool true).

Definition row_other : NetworkRow :=
  mkNetworkRow "other" true None (JStr "Other") "eth" (JStr "EVM") (JNum 1) JNull
    None (JNum 12000) (JNum 12) (JStr "0 * * * * *") (JNum 100) (JBool false).

Definition db_two : Database :=
  mkDatabase true (fun _ => false) [row_eth; row_other; row_xlm] [] [] [] [].

Definition runner_db : Runner :=
  mkRunner [] false false true "tenant" "config" "data".

Definition db_down : Database :=
  mkDatabase false (fun _ => false) [row_eth] [] [] [] [].

(** The trigger rows the triggers query returns for the references the
    monitors make. *)
Definition resolved_trigger_rows (self : Runner) (db : Database) : list TriggerRow :=
  match collect_monitors (filter (select_monitor self) (tbl_monitors db)) ([], []) with
  | Some (_, triggers_map) =>
      filter (select_trigger self (dict_keys triggers_map)) (tbl_triggers db)
  | None => []
  end.


(** Among [rows], only [row] is stored under the key [k]: no other row
    has [k] as its id or as its slug. *)
Definition stored_alone (k : string) (row : TriggerRow) (rows : list TriggerRow)
  : Prop :=
  forall row', In row' rows -> tr_id row' = k \/ tr_slug row' = k -> row' = row.

(** One of the two keys [row] is stored under, its id or its slug, is
    taken by no other row of [rows]. *)
Definition keeps_a_key (row : TriggerRow) (rows : list TriggerRow) : Prop :=
  stored_alone (tr_id row) row rows \/ stored_alone (tr_slug row) row rows.





(** A monitor that refers to a trigger of a type without detail table. *)
Definition mon_transfers : MonitorRow :=
  mkMonitorRow "tenant" true false None "transfers" (JArr [JStr "eth"]) (JArr [])
    (JArr []) (JArr []) (JArr []) (JArr []) (Some [JStr "alerts"]).

Definition trig_alerts : TriggerRow :=
  mkTriggerRow "tenant" true None "7f1e" "alerts" (JStr "Alerts") (JStr "slack").

Definition db_slack : Database :=
  mkDatabase true (fun _ => false) [row_eth] [mon_transfers] [trig_alerts] [] [].

(* ================================================================== *)
(** ** Further properties: the tracker *)

(** The block numbers successfully read for [net], in the order read. *)
Definition blocks_read (net : string) (rs : list MarkerRead) : list Z :=
  flat_map (fun r => if String.eqb (mr_network r) net
                     then match mr_block r with Some b => [b] | None => [] end
                     else []) rs.

(** First and largest block of a series of reads, starting from what is
    already recorded. *)
Definition extent (init : option (Z * Z)) (bs : list Z) : option (Z * Z) :=
  fold_left (fun acc b => match acc with
                          | None => Some (b, b)
                          | Some (f, l) => Some (f, Z.max l b)
                          end) bs init.

Definition span (o : option NetStats) : option (Z * Z) :=
  match o with Some s => Some (first_block s, last_block s) | None => None end.

(** A marker file that could be read and parsed. *)
Definition readable (r : MarkerRead) : bool :=
  match mr_block r with Some _ => true | None => false end.

(** The same pass with the unreadable markers and the missed-block files
    taken away. *)
Definition markers_only (p : Poll) : Poll :=
  mkPoll (filter readable (poll_markers p)) [].

(** A progress line reports a positive step and a positive total. *)
Definition progress_positive (l : Line) : Prop :=
  match l with
  | LProgress _ _ delta total => 0 < delta /\ 0 < total
  | _ => True
  end.

Definition ordered (s : NetStats) : Prop := first_block s <= last_block s.

(** Two networks, one of them with an unreadable marker in between. *)
Definition polls_two : list Poll :=
  [mkPoll [mkRead "eth" (Some 100) 1; mkRead "xlm" (Some 7) 1] [];
   mkPoll [mkRead "eth" None 2; mkRead "xlm" (Some 9) 2] [mkMissed "eth" (Some ["101"; "102"])];
   mkPoll [mkRead "eth" (Some 104) 3; mkRead "xlm" (Some 8) 3] []].

(** The networks named by the lines of a final report. *)
Definition report_networks (out : list Line) : list string :=
  flat_map (fun l => match l with LFinalStats n _ _ _ => [n] | _ => [] end) out.

Definition all_ordered (st : Stats) : Prop := Forall (fun kv => ordered (snd kv)) st.

(* ================================================================== *)
(** ** Further properties: the loaders *)

(** [json.load] succeeded on the file. *)
Definition parses (f : NetworkFile) : bool :=
  match nf_parsed f with Some _ => true | None => false end.

(** A second row for the slug of [row_eth], and a database holding both. *)
Definition row_eth_new : NetworkRow :=
  mkNetworkRow "tenant" true None (JStr "Ethereum (new)") "eth" (JStr "EVM") (JNum 1)
    JNull None (JNum 12000) (JNum 6) (JStr "0 * * * * *") (JNum 100) JNull.

Definition db_dup : Database :=
  mkDatabase true (fun _ => false) [row_eth; row_xlm; row_eth_new] [] [] [] [].

(** A directory with a broken file beside a good one. *)
Definition files_broken : list NetworkFile :=
  [mkNetworkFile "broken" None;
   mkNetworkFile "eth" (Some (JObj [("slug", JStr "eth"); ("network_type", JStr "EVM")]))].


(** The monitor rows the monitors query returns. *)
Definition selected_monitors (self : Runner) (db : Database) : list MonitorRow :=
  filter (select_monitor self) (tbl_monitors db).

(** A trigger row with its detail record, and the definition built from
    both. *)
Definition with_detail (db : Database) (row : TriggerRow) (cfg : obj) : Prop :=
  (is_str (tr_trigger_type row) "email" = true
   /\ exists e,
        find (fun e => String.eqb (em_trigger_id e) (tr_id row)) (tbl_email_triggers db)
        = Some e
        /\ cfg = email_trigger row e)
  \/ (is_str (tr_trigger_type row) "email" = false
      /\ is_str (tr_trigger_type row) "webhook" = true
      /\ exists w,
           find (fun w => String.eqb (wh_trigger_id w) (tr_id row))
             (tbl_webhook_triggers db)
           = Some w
           /\ cfg = webhook_trigger row w).

(** A monitor whose [triggers] column is NULL, beside a sound one. *)
Definition mon_null : MonitorRow :=
  mkMonitorRow "tenant" true false None "broken" (JArr [JStr "eth"]) (JArr [])
    (JArr []) (JArr []) (JArr []) (JArr []) None.

Definition db_null_triggers : Database :=
  mkDatabase true (fun _ => false) [row_eth] [mon_transfers; mon_null] [trig_alerts] [] [].

(** A monitor whose only reference names no trigger. *)
Definition db_dangling : Database :=
  mkDatabase true (fun _ => false) [row_eth] [mon_transfers] [] [] [].

(** A webhook trigger with its detail row, referred to by id. *)
Definition mon_hook : MonitorRow :=
  mkMonitorRow "tenant" true false None "hooked" (JArr [JStr "eth"]) (JArr [])
    (JArr []) (JArr []) (JArr []) (JArr []) (Some [JObj [("id", JStr "9a2c")]]).

Definition trig_hook : TriggerRow :=
  mkTriggerRow "tenant" true None "9a2c" "notify" (JStr "Notify") (JStr "webhook").

Definition hook_detail : WebhookRow :=
  mkWebhookRow "9a2c" (JStr "https://hooks.example") (JStr "POST") JNull JNull
    (JStr "Alert") (JStr "Something happened").

Definition db_hook : Database :=
  mkDatabase true (fun _ => false) [row_eth] [mon_hook] [trig_hook] [] [hook_detail].

(** No reference of the map has a trigger yet. *)
Definition unresolved (tm : TriggerMap) : Prop := Forall (fun kv => snd kv = None) tm.

(* ================================================================== *)
(** ** Further properties: synthesis, command and run *)


(** The monitor file of a monitor row. *)
Definition monitor_file (row : MonitorRow) : FileWrite :=
  mkWrite "monitors" (mon_slug row ++ ".json") (JObj (monitor_config row)).

(** The status a run ends with, by how far it got and how it ended. *)
Definition expected_status (self : Runner) (w : World) : Z :=
  match startup self w with
  | None => 1
  | Some _ =>
      match w_ending w with
      | ChildExits _ | Interrupted _ => 0
      | SpawnFails | Crashed _ => 1
      end
  end.

(** The signals a run sends to the child. *)
Definition expected_signals (self : Runner) (w : World) : list Signal :=
  match startup self w with
  | None => []
  | Some _ =>
      match w_ending w with
      | Interrupted child | Crashed child =>
          if wait child 10 then [SIGTERM] else [SIGTERM; SIGKILL]
      | ChildExits _ | SpawnFails => []
      end
  end.

(** A world in which no binary has been built. *)
Definition world_no_binary : World :=
  mkWorld db_empty (Some files_eth) "/tmp/blockwatcher_x" (fun _ _ => false)
    (mkBinaries false false false)
    [] [] [] (ChildExits 0).

(** No two of the keys are equal as dictionary keys. *)
Fixpoint distinct_refs (l : list json) : Prop :=
  match l with
  | [] => True
  | k :: r => (forall k', In k' r -> key_eqb k k' = false) /\ distinct_refs r
  end.

(** What a trigger reference names: a string names itself, an object its
    [id]; anything else names nothing. *)
Definition ref_key (trigger_ref : json) : option json :=
  match trigger_ref with
  | JStr _ => Some trigger_ref
  | JObj o => oget "id" o
  | _ => None
  end.

(** A network as the synthesis writes it when nothing is overridden. *)
Definition network_file (kv : json * obj) : FileWrite :=
  mkWrite "networks" (py_str (fst kv) ++ ".json") (JObj (snd kv)).

(* ================================================================== *)
(** ** Further properties: exceptions before the child is launched *)

(** The files and the lines of a sequence of steps. *)
Fixpoint puts (steps : list Step) : list FileWrite :=
  match steps with
  | [] => []
  | Say _ :: rest => puts rest
  | Put f :: rest => f :: puts rest
  end.

Fixpoint says (steps : list Step) : list Line :=
  match steps with
  | [] => []
  | Say l :: rest => l :: says rest
  | Put _ :: rest => says rest
  end.

(** A name without path separator: [config_path / dir / name] is then a
    file directly in [dir]. *)
Definition plain_name (name : string) : bool :=
  forallb (fun c => negb (Ascii.eqb c "/"%char)) (list_ascii_of_string name).

(** The file an [open] denotes lies directly in [config_path / dir]. *)
Definition direct_child (dir : string) (f : FileWrite) : Prop :=
  fw_dir f = dir /\ plain_name (fw_name f) = true.

(** A network file whose slug is a number, and a world in which the
    second file of the synthesis cannot be opened. *)
Definition files_number : list NetworkFile :=
  [mkNetworkFile "seven" (Some (JObj [("slug", JNum 7); ("network_type", JStr "EVM")]))].

Definition world_number : World :=
  mkWorld db_empty (Some files_number) "/tmp/blockwatcher_x" (fun _ _ => false)
    (mkBinaries true false false) [] [] [] (ChildExits 0).

Definition world_no_monitors_dir : World :=
  mkWorld db_empty (Some files_eth) "/tmp/blockwatcher_x"
    (fun dir _ => String.eqb dir "monitors")
    (mkBinaries true false false) [] [] [] (ChildExits 0).

(** The networks in the order in which a readable marker of theirs was
    first met. *)
Definition first_seen (rs : list MarkerRead) : list string :=
  fold_left (fun seen r =>
               if readable r && negb (existsb (String.eqb (mr_network r)) seen)
               then seen ++ [mr_network r] else seen) rs [].

(* ================================================================== *)
(** * Theorems *)

(** ** Facts about dictionaries *)

Section PyDictFacts.
Context {K V : Type}.
Variable eqb : K -> K -> bool.

Lemma dict_get_In (k : K) (v : V) (d : pydict K V) :
  dict_get eqb k d = Some v -> exists k', In (k', v) d.
Proof.
  induction d as [|[k0 v0] r IH]; simpl; [discriminate|].
  destruct (eqb k0 k).
  - intros [= ->]. exists k0. now left.
  - intros H. destruct (IH H) as [k' Hin]. exists k'. now right.
Qed.

Lemma dict_set_Forall (P : V -> Prop) (k : K) (v : V) (d : pydict K V) :
  P v -> Forall (fun kv => P (snd kv)) d ->
  Forall (fun kv => P (snd kv)) (dict_set eqb k v d).
Proof.
  intros Hv. induction d as [|[k0 v0] r IH]; simpl; intros Hd.
  - constructor; [exact Hv | constructor].
  - inversion Hd as [|? ? H0 Hr]; subst.
    destruct (eqb k0 k); constructor; simpl; auto.
Qed.

Lemma dict_get_Forall (P : V -> Prop) (k : K) (v : V) (d : pydict K V) :
  Forall (fun kv => P (snd kv)) d -> dict_get eqb k d = Some v -> P v.
Proof.
  intros Hd Hg. destruct (dict_get_In _ _ _ Hg) as [k' Hin].
  rewrite Forall_forall in Hd. exact (Hd _ Hin).
Qed.
End PyDictFacts.

(** ** ProgressTracker *)

Lemma read_marker_ok (v : bool) (st : Stats) (r : MarkerRead) :
  all_ok st -> all_ok (fst (read_marker v st r)).
Proof.
  intros Hst. unfold read_marker.
  destruct (mr_block r) as [b|]; [|exact Hst].
  destruct (stats_get (mr_network r) st) as [cur|] eqn:Hcur.
  - destruct (last_block cur <? b); [|exact Hst].
    apply dict_set_Forall; [|exact Hst]. unfold stats_ok. reflexivity.
  - apply dict_set_Forall; [|exact Hst]. unfold stats_ok. simpl. lia.
Qed.

Lemma read_markers_ok (v : bool) (rs : list MarkerRead) :
  forall st, all_ok st -> all_ok (fst (read_markers v st rs)).
Proof.
  induction rs as [|r rs IH]; intros st Hst; simpl; [exact Hst|].
  pose proof (read_marker_ok v st r Hst) as H1.
  destruct (read_marker v st r) as [st1 out1]. simpl in H1.
  specialize (IH st1 H1).
  destruct (read_markers v st1 rs) as [st2 out2]. exact IH.
Qed.

Lemma poll_once_ok (v : bool) (p : Poll) (st : Stats) :
  all_ok st -> all_ok (fst (poll_once v st p)).
Proof.
  intros Hst. unfold poll_once.
  pose proof (read_markers_ok v (poll_markers p) st Hst) as H.
  destruct (read_markers v st (poll_markers p)) as [st' out]. exact H.
Qed.

Lemma monitor_loop_ok (v : bool) (ps : list Poll) :
  forall st, all_ok st -> all_ok (fst (monitor_loop v st ps)).
Proof.
  induction ps as [|p ps IH]; intros st Hst; simpl; [exact Hst|].
  pose proof (poll_once_ok v p st Hst) as H1.
  destruct (poll_once v st p) as [st1 out1]. simpl in H1.
  specialize (IH st1 H1).
  destruct (monitor_loop v st1 ps) as [st2 out2]. exact IH.
Qed.

Lemma monitor_blocks_ok (v : bool) (ps : list Poll) :
  all_ok (fst (monitor_blocks v [] ps)).
Proof.
  unfold monitor_blocks.
  pose proof (monitor_loop_ok v ps [] (Forall_nil _)) as H.
  destruct (monitor_loop v [] ps) as [st out]. exact H.
Qed.

(** A read at or below the recorded last block changes nothing. *)
Lemma read_marker_stale (v : bool) (st : Stats) (r : MarkerRead) (b : Z)
    (cur : NetStats) :
  mr_block r = Some b -> stats_get (mr_network r) st = Some cur ->
  b <= last_block cur -> read_marker v st r = (st, []).
Proof.
  intros Hb Hcur Hle. unfold read_marker. rewrite Hb, Hcur.
  destruct (last_block cur <? b) eqn:E; [apply Z.ltb_lt in E; lia | reflexivity].
Qed.

(** A read that changes the record of a known network carries a block
    number above the recorded last block. *)
Lemma read_marker_applied (v : bool) (st : Stats) (r : MarkerRead) (cur : NetStats) :
  stats_get (mr_network r) st = Some cur ->
  fst (read_marker v st r) <> st ->
  exists b, mr_block r = Some b /\ last_block cur < b.
Proof.
  intros Hcur Hne. unfold read_marker in Hne. rewrite Hcur in Hne.
  destruct (mr_block r) as [b|]; [|now elim Hne].
  destruct (last_block cur <? b) eqn:E; [|now elim Hne].
  exists b. split; [reflexivity | now apply Z.ltb_lt].
Qed.

(** C1. After any sequence of passes of the tracker, started on empty
    statistics, every tracked network has
    [blocks_processed = last_block - first_block]; a further read whose
    block number does not exceed the recorded [last_block] leaves the
    statistics as they are (first block, last block and count included),
    and a further read changes them only if its number is strictly larger. *)
Theorem tracker_blocks_processed_invariant
    (v : bool) (polls : list Poll) (net : string) (s : NetStats) :
  let st := fst (monitor_blocks v [] polls) in
  stats_get net st = Some s ->
  blocks_processed s = last_block s - first_block s
  /\ (forall r b, mr_network r = net -> mr_block r = Some b ->
                  b <= last_block s ->
                  fst (read_marker v st r) = st
                  /\ stats_get net (fst (read_marker v st r)) = Some s)
  /\ (forall r, mr_network r = net -> fst (read_marker v st r) <> st ->
                exists b, mr_block r = Some b /\ last_block s < b).
Proof.
  intros st Hs. split; [|split].
  - change (stats_ok s).
    eapply (dict_get_Forall String.eqb stats_ok); [apply (monitor_blocks_ok v polls) | exact Hs].
  - intros r b Hn Hb Hle. subst net.
    rewrite (read_marker_stale v st r b s Hb Hs Hle). simpl. split; [reflexivity | exact Hs].
  - intros r Hn Hne. subst net. exact (read_marker_applied v st r s Hs Hne).
Qed.

Lemma tracker_blocks_processed_invariant_witness :
  stats_get "eth" (fst (monitor_blocks false [] polls_eth)) = Some (mkStats 100 105 5 2)
  /\ blocks_processed (mkStats 100 105 5 2) = 5.
Proof.
  split; [reflexivity|].
  destruct (tracker_blocks_processed_invariant false polls_eth "eth"
              (mkStats 100 105 5 2) eq_refl) as [H _].
  rewrite H. reflexivity.
Defined.

(** ** ConfigSource: the endpoint column *)





(** ** ConfigSynthesizer: the default monitors *)

Lemma monitor_writes_app (a b : list FileWrite) :
  monitor_writes (a ++ b) = monitor_writes a ++ monitor_writes b.
Proof. apply filter_app. Qed.

Lemma monitor_writes_networks (self : Runner) (nets : NetworkMap) :
  monitor_writes (write_networks self nets) = [].
Proof. induction nets as [|kv r IH]; simpl; [reflexivity | exact IH]. Qed.

Lemma monitor_writes_triggers (triggers : list obj) :
  monitor_writes (write_triggers triggers) = [].
Proof. unfold write_triggers. destruct (is_nil triggers); reflexivity. Qed.

Lemma monitor_writes_minimal (nets : NetworkMap) :
  monitor_writes (_create_minimal_monitor_configs nets)
  = _create_minimal_monitor_configs nets.
Proof.
  unfold _create_minimal_monitor_configs.
  destruct (is_nil (networks_of_type "EVM" nets));
    destruct (is_nil (networks_of_type "Stellar" nets)); reflexivity.
Qed.

Lemma monitor_writes_synthesis (self : Runner) (db : Database) (tmp : string)
    (nets : NetworkMap) :
  no_monitors_supplied self db ->
  monitor_writes (sy_writes (create_minimal_configs self db tmp nets))
  = _create_minimal_monitor_configs nets.
Proof.
  intros H. unfold create_minimal_configs.
  destruct (use_database self) eqn:Hdb.
  - destruct H as [H | [out [triggers H]]]; [congruence|].
    rewrite H. simpl.
    rewrite !monitor_writes_app, monitor_writes_networks, monitor_writes_triggers,
      monitor_writes_minimal, app_nil_r. reflexivity.
  - simpl. rewrite !monitor_writes_app, monitor_writes_networks, monitor_writes_minimal.
    simpl. apply app_nil_r.
Qed.



Lemma In_minimal_monitors (nets : NetworkMap) (w : FileWrite) :
  In w (_create_minimal_monitor_configs nets) <->
  (type_present "EVM" nets = true
   /\ w = mkWrite "monitors" "blockwatcher_evm.json"
            (evm_monitor (networks_of_type "EVM" nets)))
  \/ (type_present "Stellar" nets = true
      /\ w = mkWrite "monitors" "blockwatcher_stellar.json"
               (stellar_monitor (networks_of_type "Stellar" nets))).
Proof.
  unfold _create_minimal_monitor_configs, type_present.
  destruct (is_nil (networks_of_type "EVM" nets));
    destruct (is_nil (networks_of_type "Stellar" nets)); simpl;
    intuition (try discriminate; auto).
Qed.





(** C3. At networks of three types with no monitors supplied, the code
    does not do what the claim, and the comment of line 443, say: three
    network types are present and two monitors are written, none of them for
    the network of the third type. *)
Lemma default_monitor_per_type_counterexample :
  no_monitors_supplied runner_files db_empty
  /\ List.length (distinct_types nets_mixed) = 3%nat
  /\ monitor_writes
       (sy_writes (create_minimal_configs runner_files db_empty "tmp" nets_mixed))
     = [mkWrite "monitors" "blockwatcher_evm.json" (evm_monitor [JStr "eth"]);
        mkWrite "monitors" "blockwatcher_stellar.json" (stellar_monitor [JStr "xlm"])]
  /\ List.length
       (monitor_writes
          (sy_writes (create_minimal_configs runner_files db_empty "tmp" nets_mixed)))
     <> List.length (distinct_types nets_mixed).
Proof.
  split; [left; reflexivity|]. split; [reflexivity|]. split; [reflexivity|].
  simpl. discriminate.
Qed.

(** ** ConfigSynthesizer: the copy of a network *)

Lemma oget_oset_same (k : string) (v : json) (o : obj) :
  oget k (oset k v o) = Some v.
Proof.
  unfold oget, oset. induction o as [|[k0 v0] r IH]; simpl.
  - now rewrite String.eqb_refl.
  - destruct (String.eqb k0 k) eqn:E; simpl; rewrite E; [reflexivity | exact IH].
Qed.

Lemma oget_oset_other (k k' : string) (v : json) (o : obj) :
  k <> k' -> oget k (oset k' v o) = oget k o.
Proof.
  intros Hne. unfold oget, oset. induction o as [|[k0 v0] r IH]; simpl.
  - destruct (String.eqb k' k) eqn:E; [|reflexivity].
    apply String.eqb_eq in E. congruence.
  - destruct (String.eqb k0 k') eqn:E; simpl.
    + apply String.eqb_eq in E. subst k0.
      destruct (String.eqb k' k) eqn:E'; [|reflexivity].
      apply String.eqb_eq in E'. congruence.
    + now rewrite IH.
Qed.

Lemma network_copy_fields (self : Runner) (config : obj) :
  (store_blocks self = true ->
     oget "store_blocks" (network_copy self config) = Some (JBool true))
  /\ (store_blocks self = false -> network_copy self config = config)
  /\ (forall k, k <> "store_blocks" ->
        oget k (network_copy self config) = oget k config)
  /\ (oget "store_blocks" config = Some (JBool true) ->
        oget "store_blocks" (network_copy self config) = Some (JBool true)).
Proof.
  unfold network_copy. destruct (store_blocks self); repeat split; try discriminate.
  - intros _. apply oget_oset_same.
  - intros k Hk. now apply oget_oset_other.
  - intros _. apply oget_oset_same.
  - intros H. exact H.
Qed.

(** C9. Every network handed to the synthesis is written to
    [networks/<slug>.json] as a copy of its record; with the store-blocks
    option set the copy has [store_blocks] true, without it the copy is the
    record itself; no other field differs, and a record whose own
    [store_blocks] is true keeps it true either way. The relational loader
    likewise keeps a row's own true value. *)
Theorem network_copy_store_blocks_override
    (self : Runner) (db : Database) (tmp : string) (nets : NetworkMap)
    (slug : json) (config : obj) :
  In (slug, config) nets ->
  In (mkWrite "networks" (py_str slug ++ ".json") (JObj (network_copy self config)))
     (sy_writes (create_minimal_configs self db tmp nets))
  /\ (store_blocks self = true ->
        oget "store_blocks" (network_copy self config) = Some (JBool true))
  /\ (store_blocks self = false -> network_copy self config = config)
  /\ (forall k, k <> "store_blocks" ->
        oget k (network_copy self config) = oget k config)
  /\ (oget "store_blocks" config = Some (JBool true) ->
        oget "store_blocks" (network_copy self config) = Some (JBool true))
  /\ (forall row, nr_store_blocks row = JBool true ->
        oget "store_blocks" (row_config self row) = Some (JBool true)).
Proof.
  intros Hin. split.
  - assert (Hw : In (mkWrite "networks" (py_str slug ++ ".json")
                       (JObj (network_copy self config))) (write_networks self nets)).
    { unfold write_networks.
      exact (in_map (fun kv => mkWrite "networks" (py_str (fst kv) ++ ".json")
                                 (JObj (network_copy self (snd kv)))) nets _ Hin). }
    unfold create_minimal_configs. destruct (use_database self).
    + destruct (load_monitor_and_trigger_configs_from_db self db) as [out res].
      destruct res as [[monitors triggers]|code]; simpl; apply in_or_app; now left.
    + simpl. apply in_or_app. now left.
  - destruct (network_copy_fields self config) as [H1 [H2 [H3 H4]]].
    repeat (split; [assumption|]).
    intros row Hrow. unfold row_config, oget. simpl. rewrite Hrow. reflexivity.
Qed.

Lemma network_copy_store_blocks_override_witness :
  In (mkWrite "networks" "eth.json"
        (JObj [("slug", JStr "eth"); ("network_type", JStr "EVM");
               ("store_blocks", JBool true)]))
     (sy_writes (create_minimal_configs runner_store db_empty "tmp" nets_eth)).
Proof.
  exact (proj1 (network_copy_store_blocks_override runner_store db_empty "tmp" nets_eth
                  (JStr "eth")
                  [("slug", JStr "eth"); ("network_type", JStr "EVM");
                   ("store_blocks", JBool false)]
                  (or_introl eq_refl))).
Defined.

(** ** ProcessSupervisor *)

Lemma final_statistics_report (stats : Stats) :
  forall l, In l (final_statistics stats) -> is_report_line l = true.
Proof.
  unfold final_statistics. destruct (is_nil stats); [intros l []|].
  intros l [<- | Hin]; [reflexivity|].
  apply in_map_iff in Hin. destruct Hin as [kv [<- _]]. reflexivity.
Qed.

Lemma stop_process_cases (child : Child) :
  (forall d, child = Some d -> (d <= 10000)%N ->
     stop_process child = mkShutdown Stopped [SIGTERM] [LGraceful])
  /\ ((child = None \/ exists d, child = Some d /\ (10000 < d)%N) ->
     stop_process child = mkShutdown Killed [SIGTERM; SIGKILL] [LKilled]).
Proof.
  unfold stop_process, wait. split.
  - intros d -> Hd. change (1000 * 10)%N with 10000%N.
    destruct (N.leb_spec d 10000); [reflexivity | lia].
  - intros [-> | [d [-> Hd]]]; [reflexivity|]. change (1000 * 10)%N with 10000%N.
    destruct (N.leb_spec d 10000); [lia | reflexivity].
Qed.

Lemma run_after_startup (self : Runner) (w : World) (pre : list Line) (sy : Synthesis) :
  startup self w = Some (pre, sy) ->
  run self w
  = let '(status, out4, tracker_out, signals) := supervise self w (sy_temp sy) in
    mkResult status (pre ++ out4) tracker_out (sy_writes sy) signals.
Proof.
  unfold startup, run.
  destruct (load_network_configs self (w_db w) (w_network_dir w)) as [out1 [nets|code]];
    [|discriminate].
  destruct (negb (all_strings (dict_keys nets))); [discriminate|].
  destruct (negb (all_open (w_open_raises w)
                    (sy_writes (create_minimal_configs self (w_db w) (w_tmp w) nets))));
    [discriminate|].
  destruct (build_command self (w_bins w) (w_environ w)
              (sy_path (create_minimal_configs self (w_db w) (w_tmp w) nets)))
    as [out3 [cmd|code]]; [|discriminate].
  intros [= <- <-].
  destruct (supervise self w _) as [[[status out4] tracker_out] signals].
  f_equal. simpl. f_equal. f_equal.
  repeat (rewrite <- app_assoc; simpl). reflexivity.
Qed.

Lemma startup_with_ending (self : Runner) (w : World) (e : Ending) :
  startup self (with_ending w e) = startup self w.
Proof. reflexivity. Qed.

(** C4. Stopping a started child sends the termination request and waits
    10 seconds: a child that exits within that time leaves the run Stopped,
    with the clean exit reported and no kill; a child that takes longer, or
    never exits, is killed and leaves the run Killed, with the forced exit
    reported. *)
Theorem graceful_stop_then_kill (child : Child) (stats : Stats) :
  let s := shutdown (Some child) stats in
  (forall d, child = Some d -> (d <= 1000 * 10)%N ->
     sd_state s = Stopped /\ sd_signals s = [SIGTERM]
     /\ In LGraceful (sd_out s) /\ ~ In LKilled (sd_out s))
  /\ ((child = None \/ exists d, child = Some d /\ (1000 * 10 < d)%N) ->
     sd_state s = Killed /\ sd_signals s = [SIGTERM; SIGKILL]
     /\ In LKilled (sd_out s) /\ ~ In LGraceful (sd_out s))
  /\ (forall self w pre sy, startup self w = Some (pre, sy) ->
        w_ending w = Interrupted child ->
        rr_signals (run self w) = sd_signals (stop_process child)).
Proof.
  cbv zeta. unfold shutdown.
  destruct (stop_process_cases child) as [Hs Hk]. split; [|split].
  - intros d Hc Hd. rewrite (Hs d Hc Hd). simpl.
    repeat split; [now left|].
    intros [H | H]; [discriminate|].
    apply final_statistics_report in H. discriminate.
  - intros Hc. rewrite (Hk Hc). simpl.
    repeat split; [now left|].
    intros [H | H]; [discriminate|].
    apply final_statistics_report in H. discriminate.
  - intros self w pre sy Hstart He.
    rewrite (run_after_startup self w pre sy Hstart). unfold supervise.
    destruct (monitor_blocks (verbose self) [] (w_polls w)) as [st tracker_out].
    rewrite He. reflexivity.
Qed.

Lemma graceful_stop_then_kill_witness :
  sd_state (shutdown (Some (Some 2500%N)) []) = Stopped
  /\ sd_state (shutdown (Some (Some 10001%N)) []) = Killed
  /\ sd_signals (shutdown (Some None) []) = [SIGTERM; SIGKILL].
Proof.
  split; [|split].
  - destruct (graceful_stop_then_kill (Some 2500%N) []) as [H _].
    destruct (H 2500%N eq_refl) as [H1 _]; [vm_compute; discriminate | exact H1].
  - destruct (graceful_stop_then_kill (Some 10001%N) []) as [_ [H _]].
    destruct H as [H1 _]; [right; exists 10001%N; split; reflexivity | exact H1].
  - destruct (graceful_stop_then_kill None []) as [_ [H _]].
    destruct H as [_ [H2 _]]; [now left | exact H2].
Defined.

(** C5 (as the runner does it). When the child exits on its own, [run]
    returns and the process ends with status 0 whatever the child's exit
    code; the code is not part of anything the run leaves behind, and no
    signal is sent. *)
Theorem child_exit_code_not_propagated
    (self : Runner) (w : World) (pre : list Line) (sy : Synthesis) (code : Z) :
  startup self w = Some (pre, sy) ->
  w_ending w = ChildExits code ->
  rr_status (run self w) = 0
  /\ rr_signals (run self w) = []
  /\ forall code', run self (with_ending w (ChildExits code')) = run self w.
Proof.
  intros Hs He.
  assert (Hrun : forall c, run self (with_ending w (ChildExits c))
                 = mkResult 0 (pre ++ relay self (w_child_lines w)
                                   ++ cleanup self (sy_temp sy))
                     (snd (monitor_blocks (verbose self) [] (w_polls w)))
                     (sy_writes sy) []).
  { intros c. rewrite (run_after_startup self (with_ending w (ChildExits c)) pre sy Hs).
    unfold supervise. simpl.
    destruct (monitor_blocks (verbose self) [] (w_polls w)); reflexivity. }
  assert (Hw : run self w = run self (with_ending w (ChildExits code))).
  { rewrite (run_after_startup self w pre sy Hs).
    rewrite (run_after_startup self (with_ending w (ChildExits code)) pre sy Hs).
    unfold supervise. simpl. rewrite He. reflexivity. }
  rewrite Hw. split; [|split].
  - now rewrite Hrun.
  - now rewrite Hrun.
  - intros code'. now rewrite !Hrun.
Qed.

Lemma child_exit_code_not_propagated_witness :
  rr_status (run runner_files (world_eth (ChildExits 3))) = 0.
Proof.
  exact (proj1 (child_exit_code_not_propagated runner_files (world_eth (ChildExits 3))
                  _ _ 3 eq_refl eq_refl)).
Defined.

(** C5, as stated, fails: the child ends with status 3 and the runner
    with status 0. *)
Lemma child_exit_code_counterexample :
  w_ending (world_eth (ChildExits 3)) = ChildExits 3
  /\ 3 <> 0
  /\ rr_status (run runner_files (world_eth (ChildExits 3))) = 0.
Proof. split; [reflexivity | split; [discriminate | reflexivity]]. Qed.

(** ** The final statistics report *)













(** C6. At a run whose child exits on its own, the code does not do
    what the claim says and what its two handlers do: statistics were
    collected, the child exits cleanly, and no line of the report is
    printed. *)
Lemma final_statistics_counterexample :
  final_statistics (fst (monitor_blocks false [] polls_eth))
  = [LFinalHeader; LFinalStats "eth" 5 105 2]
  /\ w_ending (world_eth (ChildExits 0)) = ChildExits 0
  /\ existsb is_report_line (rr_out (run runner_files (world_eth (ChildExits 0)))) = false.
Proof. repeat split. Qed.

(** ** ConfigSource: what a load returns *)

Lemma nets_set_fresh (k : json) (c : obj) (m : NetworkMap) :
  (forall kv, In kv m -> key_eqb (fst kv) k = false) -> nets_set k c m = m ++ [(k, c)].
Proof.
  unfold nets_set. induction m as [|[k0 c0] r IH]; intros H; simpl; [reflexivity|].
  pose proof (H (k0, c0) (or_introl eq_refl)) as E. simpl in E. rewrite E. f_equal.
  apply IH. intros kv Hin. apply H. now right.
Qed.

Lemma distinct_keys_app (a b : list (json * obj)) :
  distinct_keys (a ++ b) ->
  distinct_keys a /\ distinct_keys b
  /\ forall x y, In x a -> In y b -> key_eqb (fst x) (fst y) = false.
Proof.
  induction a as [|kv r IH]; simpl.
  - intros H. repeat split; [exact H | intros x y []].
  - intros [Hkv Hr]. destruct (IH Hr) as [Ha [Hb Hab]]. repeat split.
    + intros kv' Hin. apply Hkv. apply in_or_app. now left.
    + exact Ha.
    + exact Hb.
    + intros x y [<- | Hx] Hy; [apply Hkv; apply in_or_app; now right | now apply Hab].
Qed.

Lemma set_all_distinct (kvs : list (json * obj)) :
  forall m, distinct_keys (m ++ kvs) -> set_all m kvs = m ++ kvs.
Proof.
  induction kvs as [|[k c] r IH]; intros m H; simpl.
  - now rewrite app_nil_r.
  - destruct (distinct_keys_app m ((k, c) :: r) H) as [_ [_ Hab]].
    rewrite nets_set_fresh.
    + rewrite IH; rewrite <- app_assoc; [reflexivity | exact H].
    + intros kv Hin. apply (Hab kv (k, c) Hin). now left.
Qed.

Lemma nets_set_not_nil (k : json) (c : obj) (m : NetworkMap) : is_nil (nets_set k c m) = false.
Proof.
  unfold nets_set. destruct m as [|[k0 c0] r]; simpl; [reflexivity|].
  destruct (key_eqb k0 k); reflexivity.
Qed.

Lemma set_all_not_nil (kvs : list (json * obj)) :
  forall m, is_nil m = false \/ is_nil kvs = false -> is_nil (set_all m kvs) = false.
Proof.
  induction kvs as [|kv r IH]; intros m H; simpl.
  - destruct H as [H | H]; [exact H | discriminate].
  - apply IH. left. apply nets_set_not_nil.
Qed.

Lemma fold_add_row (self : Runner) (rows : list NetworkRow) :
  forall acc, fst (fold_left (add_row self) rows acc)
              = set_all (fst acc) (map (row_entry self) rows).
Proof.
  induction rows as [|row rows IH]; intros acc; simpl; [reflexivity|].
  rewrite IH. reflexivity.
Qed.

Lemma fold_add_file (self : Runner) (files : list NetworkFile) :
  forall acc, fst (fold_left (add_file self) files acc)
              = set_all (fst acc) (present (map (loaded_entry self) files)).
Proof.
  induction files as [|f files IH]; intros acc; simpl; [reflexivity|].
  rewrite IH. unfold add_file, loaded_entry.
  destruct (load_file self f); reflexivity.
Qed.

Lemma loaded_entry_all (self : Runner) (f : NetworkFile) :
  networks self = [] -> loaded_entry self f = file_entry f.
Proof.
  intros Hsel. unfold loaded_entry, load_file, file_entry. rewrite Hsel. simpl.
  destruct (nf_parsed f) as [[| | | |l|config]|]; try reflexivity.
  destruct (hashable _); reflexivity.
Qed.

Lemma loaded_entry_none (self : Runner) (f : NetworkFile) :
  networks self <> [] ->
  (forall slug, file_slug f = Some slug -> in_selection slug (networks self) = false) ->
  loaded_entry self f = None.
Proof.
  intros Hsel H. unfold loaded_entry, load_file. unfold file_slug in H.
  destruct (nf_parsed f) as [[| | | |l|config]|]; try reflexivity.
  rewrite (H _ eq_refl).
  destruct (networks self); [congruence | reflexivity].
Qed.

Lemma loaded_entry_sub (self : Runner) (f : NetworkFile) :
  file_entry f = None -> loaded_entry self f = None.
Proof.
  unfold loaded_entry, load_file, file_entry.
  destruct (nf_parsed f) as [[| | | |l|config]|]; try reflexivity.
  destruct (hashable _); [discriminate|]. intros _.
  destruct (negb (is_nil (networks self)) && _); reflexivity.
Qed.

Lemma present_none {A B : Type} (g : A -> option B) (l : list A) :
  (forall a, In a l -> g a = None) -> present (map g l) = [].
Proof.
  induction l as [|a r IH]; intros H; simpl; [reflexivity|].
  rewrite (H a (or_introl eq_refl)). apply IH. intros b Hb. apply H. now right.
Qed.

Lemma filter_andb {A : Type} (f g : A -> bool) (l : list A) :
  filter (fun x => f x && g x) l = filter g (filter f l).
Proof.
  induction l as [|a r IH]; simpl; [reflexivity|].
  destruct (f a); simpl; [destruct (g a)|]; now rewrite IH.
Qed.

Lemma selected_rows (self : Runner) (db : Database) :
  filter (select_network self) (tbl_networks db)
  = filter (fun row => is_nil (networks self)
                       || existsb (String.eqb (nr_slug row)) (networks self))
      (active_rows self db).
Proof. unfold active_rows. rewrite <- filter_andb. reflexivity. Qed.

Lemma filter_none {A : Type} (f : A -> bool) (l : list A) :
  (forall a, In a l -> f a = false) -> filter f l = [].
Proof.
  induction l as [|a r IH]; intros H; simpl; [reflexivity|].
  rewrite (H a (or_introl eq_refl)). apply IH. intros b Hb. apply H. now right.
Qed.

Lemma filter_all {A : Type} (f : A -> bool) (l : list A) :
  (forall a, In a l -> f a = true) -> filter f l = l.
Proof.
  induction l as [|a r IH]; intros H; simpl; [reflexivity|].
  rewrite (H a (or_introl eq_refl)). f_equal. apply IH. intros b Hb. apply H. now right.
Qed.

Lemma distinct_row_entries (self : Runner) (rows : list NetworkRow) :
  NoDup (map nr_slug rows) -> distinct_keys (map (row_entry self) rows).
Proof.
  induction rows as [|row rows IH]; simpl; intros H; [exact I|].
  inversion H as [|? ? Hnotin Hnd]; subst. split; [|now apply IH].
  intros kv' Hin. apply in_map_iff in Hin. destruct Hin as [row' [<- Hin]]. simpl.
  apply String.eqb_neq. intros Heq. apply Hnotin. rewrite Heq. now apply in_map.
Qed.

Lemma load_db_result (self : Runner) (db : Database) :
  db_up db ->
  let nets := set_all [] (map (row_entry self)
                            (filter (select_network self) (tbl_networks db))) in
  snd (load_network_configs_from_db self db)
  = (if is_nil nets then Exited 1 else Returned nets)
  /\ (is_nil nets = true ->
      existsb is_not_found (fst (load_network_configs_from_db self db)) = true).
Proof.
  intros [Hc Hq]. cbv zeta. unfold load_network_configs_from_db. rewrite Hc, Hq. simpl.
  pose proof (fold_add_row self (filter (select_network self) (tbl_networks db))
                ([], [])) as H.
  destruct (fold_left _ _ _) as [nets out]. simpl in H. subst nets.
  destruct (is_nil _); simpl; split; try reflexivity; try discriminate.
  intros _. rewrite existsb_app. simpl.
  destruct (is_nil (networks self)); simpl; apply orb_true_r.
Qed.

Lemma load_files_result (self : Runner) (files : list NetworkFile) :
  let nets := set_all [] (present (map (loaded_entry self) files)) in
  snd (load_network_configs_from_files self (Some files))
  = (if is_nil nets then Exited 1 else Returned nets)
  /\ (is_nil nets = true ->
      existsb is_not_found (fst (load_network_configs_from_files self (Some files))) = true).
Proof.
  cbv zeta. unfold load_network_configs_from_files.
  pose proof (fold_add_file self files ([], [])) as H.
  destruct (fold_left _ _ _) as [nets out]. simpl in H. subst nets.
  destruct (is_nil _); simpl; split; try reflexivity; try discriminate.
  intros _. rewrite existsb_app. simpl.
  destruct (is_nil (networks self)); simpl; apply orb_true_r.
Qed.

Lemma key_eqb_refl (k : json) : hashable k = true -> key_eqb k k = true.
Proof.
  destruct k as [|b|z|s|l|o]; simpl; intros H; try discriminate; try reflexivity.
  - apply Bool.eqb_reflx.
  - apply Z.eqb_refl.
  - apply String.eqb_refl.
Qed.

Lemma nets_get_distinct (l : NetworkMap) (k : json) (c : obj) :
  distinct_keys l -> In (k, c) l -> key_eqb k k = true -> nets_get k l = Some c.
Proof.
  unfold nets_get. intros Hd Hin Hk.
  induction l as [|[k0 c0] r IH]; simpl in *; [contradiction|].
  destruct Hd as [Hhead Hr]. destruct Hin as [[= -> ->] | Hin].
  - now rewrite Hk.
  - pose proof (Hhead (k, c) Hin) as E. simpl in E. rewrite E. now apply IH.
Qed.

Lemma file_entry_hashable (f : NetworkFile) (slug : json) (config : obj) :
  file_entry f = Some (slug, config) -> hashable slug = true.
Proof.
  unfold file_entry. destruct (nf_parsed f) as [[| | | |l|o]|]; try discriminate.
  destruct (hashable _) eqn:E; [|discriminate]. intros [= <- _]. exact E.
Qed.

Lemma In_present {A : Type} (l : list (option A)) (a : A) :
  In (Some a) l -> In a (present l).
Proof.
  induction l as [|[x|] r IH]; simpl; [contradiction| |].
  - intros [[= ->] | H]; [now left | right; now apply IH].
  - intros [H | H]; [discriminate | now apply IH].
Qed.

Lemma is_nil_false {A : Type} (l : list A) : l <> [] -> is_nil l = false.
Proof. destruct l; [congruence | reflexivity]. Qed.

(** The relational backend (lines 71-162). *)
Lemma load_db_contract (self : Runner) (db : Database) :
  db_up db ->
  let r := load_network_configs_from_db self db in
  (networks self <> [] ->
   (forall row, In row (active_rows self db) -> ~ In (nr_slug row) (networks self)) ->
   not_found r)
  /\ (active_rows self db = [] -> not_found r)
  /\ (networks self = [] -> active_rows self db <> [] ->
      NoDup (map nr_slug (active_rows self db)) ->
      snd r = Returned (map (row_entry self) (active_rows self db))
      /\ forall row, In row (active_rows self db) ->
           nets_get (JStr (nr_slug row)) (map (row_entry self) (active_rows self db))
           = Some (row_config self row)).
Proof.
  intros Hup. cbv zeta. destruct (load_db_result self db Hup) as [Hres Hmsg].
  rewrite selected_rows in Hres, Hmsg. split; [|split].
  - intros Hsel Hnone.
    assert (Hf : filter (fun row => is_nil (networks self)
                           || existsb (String.eqb (nr_slug row)) (networks self))
                   (active_rows self db) = []).
    { apply filter_none. intros row Hin. rewrite (is_nil_false _ Hsel). simpl.
      destruct (existsb (String.eqb (nr_slug row)) (networks self)) eqn:E;
        [|reflexivity].
      apply existsb_exists in E. destruct E as [s [Hs E]].
      apply String.eqb_eq in E. subst s. elim (Hnone row Hin Hs). }
    rewrite Hf in Hres, Hmsg.
    split; [exact Hres | now apply Hmsg].
  - intros Hempty. rewrite Hempty in Hres, Hmsg. simpl in Hres, Hmsg.
    split; [exact Hres | now apply Hmsg].
  - intros Hsel Hrows Hnd. rewrite Hsel in Hres. simpl in Hres.
    rewrite filter_all in Hres by reflexivity.
    pose proof (distinct_row_entries self _ Hnd) as Hdist.
    rewrite set_all_distinct in Hres by exact Hdist. simpl in Hres.
    rewrite is_nil_false in Hres.
    + split; [exact Hres|]. intros row Hin.
      apply nets_get_distinct; [exact Hdist | | apply String.eqb_refl].
      exact (in_map (row_entry self) _ _ Hin).
    + destruct (active_rows self db); [congruence | discriminate].
Qed.

(** The file backend (lines 166-196). *)
Lemma load_files_contract (self : Runner) (files : list NetworkFile) :
  let r := load_network_configs_from_files self (Some files) in
  (networks self <> [] ->
   (forall f slug, In f files -> file_slug f = Some slug ->
                   in_selection slug (networks self) = false) ->
   not_found r)
  /\ ((forall f, In f files -> file_entry f = None) -> not_found r)
  /\ (networks self = [] -> present (map file_entry files) <> [] ->
      distinct_keys (present (map file_entry files)) ->
      snd r = Returned (present (map file_entry files))
      /\ forall f slug config, In f files -> file_entry f = Some (slug, config) ->
           nets_get slug (present (map file_entry files)) = Some config).
Proof.
  cbv zeta. destruct (load_files_result self files) as [Hres Hmsg]. split; [|split].
  - intros Hsel Hnone.
    assert (Hf : present (map (loaded_entry self) files) = []).
    { apply present_none. intros f Hin. apply loaded_entry_none; [exact Hsel|].
      intros slug. now apply Hnone. }
    rewrite Hf in Hres, Hmsg.
    split; [exact Hres | now apply Hmsg].
  - intros Hnone.
    assert (Hf : present (map (loaded_entry self) files) = []).
    { apply present_none. intros f Hin. apply loaded_entry_sub. now apply Hnone. }
    rewrite Hf in Hres, Hmsg.
    split; [exact Hres | now apply Hmsg].
  - intros Hsel Hsome Hdist.
    rewrite (map_ext _ _ (fun f => loaded_entry_all self f Hsel)) in Hres.
    rewrite set_all_distinct in Hres by exact Hdist. simpl in Hres.
    rewrite (is_nil_false _ Hsome) in Hres.
    split; [exact Hres|]. intros f slug config Hin He.
    apply nets_get_distinct; [exact Hdist | |].
    + apply In_present. rewrite <- He. now apply in_map.
    + apply key_eqb_refl. exact (file_entry_hashable f slug config He).
Qed.

(** C7. In either backend the load ends in the not-found failure when a
    non-empty selection names no existing slug and when there is no network
    at all; with an empty selection it returns every record (every active,
    undeleted row of the tenant; every readable file), each under its
    slug. *)
Theorem load_not_found_or_every_record
    (self : Runner) (db : Database) (dir : option (list NetworkFile)) :
  let r := load_network_configs self db dir in
  (use_database self = true -> db_up db ->
     (networks self <> [] ->
      (forall row, In row (active_rows self db) -> ~ In (nr_slug row) (networks self)) ->
      not_found r)
     /\ (active_rows self db = [] -> not_found r)
     /\ (networks self = [] -> active_rows self db <> [] ->
         NoDup (map nr_slug (active_rows self db)) ->
         snd r = Returned (map (row_entry self) (active_rows self db))
         /\ forall row, In row (active_rows self db) ->
              nets_get (JStr (nr_slug row)) (map (row_entry self) (active_rows self db))
              = Some (row_config self row)))
  /\ (use_database self = false ->
      (dir = None -> not_found r)
      /\ forall files, dir = Some files ->
           (networks self <> [] ->
            (forall f slug, In f files -> file_slug f = Some slug ->
                            in_selection slug (networks self) = false) ->
            not_found r)
           /\ ((forall f, In f files -> file_entry f = None) -> not_found r)
           /\ (networks self = [] -> present (map file_entry files) <> [] ->
               distinct_keys (present (map file_entry files)) ->
               snd r = Returned (present (map file_entry files))
               /\ forall f slug config, In f files ->
                    file_entry f = Some (slug, config) ->
                    nets_get slug (present (map file_entry files)) = Some config)).
Proof.
  cbv zeta. unfold load_network_configs. split.
  - intros Hdb Hup. rewrite Hdb. exact (load_db_contract self db Hup).
  - intros Hdb. rewrite Hdb. split.
    + intros ->. split; reflexivity.
    + intros files ->. exact (load_files_contract self files).
Qed.

Lemma load_not_found_or_every_record_witness :
  snd (load_network_configs runner_db db_two None)
  = Returned [row_entry runner_db row_eth; row_entry runner_db row_xlm]
  /\ not_found (load_network_configs
                  (mkRunner ["sol"] false false true "tenant" "config" "data") db_two None)
  /\ not_found (load_network_configs
                  (mkRunner ["sol"] false false false "tenant" "config" "data") db_two
                  (Some files_eth)).
Proof.
  split; [|split].
  - destruct (load_not_found_or_every_record runner_db db_two None) as [H _].
    destruct (H eq_refl (conj eq_refl eq_refl)) as [_ [_ H3]].
    destruct H3 as [H3 _]; [reflexivity | discriminate | | exact H3].
    repeat constructor; simpl; intuition discriminate.
  - destruct (load_not_found_or_every_record
                (mkRunner ["sol"] false false true "tenant" "config" "data") db_two None)
      as [H _].
    destruct (H eq_refl (conj eq_refl eq_refl)) as [H1 _].
    apply H1; [discriminate|].
    intros row [<- | [<- | []]] [H0 | []]; discriminate.
  - destruct (load_not_found_or_every_record
                (mkRunner ["sol"] false false false "tenant" "config" "data") db_two
                (Some files_eth)) as [_ H].
    destruct (H eq_refl) as [_ H2]. destruct (H2 files_eth eq_refl) as [H1 _].
    apply H1; [discriminate|].
    intros f slug [<- | []] [= <-]. reflexivity.
Defined.

(** ** ConfigSource: backend failures *)

(** C8. With the relational backend selected, a failed connection or a
    failed networks query ends the process with status 1, whatever the
    configuration directory holds, and nothing is written; the same failure
    while loading monitors and triggers is printed and the call returns, with
    no monitors and no triggers. That call returns in every case. *)
Theorem backend_failure_fatal_or_reported (self : Runner) (db : Database) :
  (use_database self = true ->
   db_connects db = false \/ db_raises db SelNetworks = true ->
   (forall dir, load_network_configs self db dir = ([LFailedDbNetworks], Exited 1))
   /\ (forall w, w_db w = db -> rr_status (run self w) = 1 /\ rr_writes (run self w) = []))
  /\ (db_connects db = false \/ db_raises db SelMonitors = true ->
      load_monitor_and_trigger_configs_from_db self db
      = ([LFailedDbMonitors], Returned ([], [])))
  /\ (load_monitors_try self db = None ->
      load_monitor_and_trigger_configs_from_db self db
      = ([LFailedDbMonitors], Returned ([], [])))
  /\ (exists r, snd (load_monitor_and_trigger_configs_from_db self db) = Returned r).
Proof.
  assert (Hnet : use_database self = true ->
                 db_connects db = false \/ db_raises db SelNetworks = true ->
                 forall dir, load_network_configs self db dir
                             = ([LFailedDbNetworks], Exited 1)).
  { intros Hdb Hfail dir. unfold load_network_configs, load_network_configs_from_db.
    rewrite Hdb. destruct Hfail as [-> | ->]; [reflexivity|].
    now rewrite orb_true_r. }
  assert (Htry : load_monitors_try self db = None ->
                 load_monitor_and_trigger_configs_from_db self db
                 = ([LFailedDbMonitors], Returned ([], []))).
  { intros H. unfold load_monitor_and_trigger_configs_from_db. now rewrite H. }
  split; [|split; [|split]].
  - intros Hdb Hfail. split; [exact (Hnet Hdb Hfail)|].
    intros w <-. unfold run. rewrite (Hnet Hdb Hfail). split; reflexivity.
  - intros Hfail. apply Htry. unfold load_monitors_try.
    destruct Hfail as [-> | ->]; [reflexivity|]. now rewrite orb_true_r.
  - exact Htry.
  - unfold load_monitor_and_trigger_configs_from_db.
    destruct (load_monitors_try self db) as [[monitors triggers]|]; eexists; reflexivity.
Qed.

Lemma backend_failure_fatal_or_reported_witness :
  load_network_configs runner_db db_down (Some files_eth) = ([LFailedDbNetworks], Exited 1)
  /\ load_monitor_and_trigger_configs_from_db runner_db db_down
     = ([LFailedDbMonitors], Returned ([], [])).
Proof.
  destruct (backend_failure_fatal_or_reported runner_db db_down) as [H1 [H2 _]].
  split.
  - exact (proj1 (H1 eq_refl (or_introl eq_refl)) (Some files_eth)).
  - exact (H2 (or_introl eq_refl)).
Defined.

(** ** ConfigSource and ConfigSynthesizer: triggers without detail *)

Lemma tm_get_set_same (k : string) (v : option obj) (tm : TriggerMap) :
  dict_get key_eqb (JStr k) (dict_set key_eqb (JStr k) v tm) = Some v.
Proof.
  induction tm as [|[k0 v0] r IH]; simpl.
  - now rewrite String.eqb_refl.
  - destruct (key_eqb k0 (JStr k)) eqn:E; simpl; rewrite E; [reflexivity | exact IH].
Qed.

Lemma tm_get_set_other (k k' : string) (v : option obj) (tm : TriggerMap) :
  k' <> k ->
  dict_get key_eqb (JStr k) (dict_set key_eqb (JStr k') v tm)
  = dict_get key_eqb (JStr k) tm.
Proof.
  intros Hne. induction tm as [|[k0 v0] r IH]; simpl.
  - destruct (String.eqb k' k) eqn:E; [|reflexivity].
    apply String.eqb_eq in E. congruence.
  - destruct (key_eqb k0 (JStr k')) eqn:E; simpl.
    + destruct k0 as [| | |s| |]; simpl in E; try discriminate.
      apply String.eqb_eq in E. subst s. simpl.
      destruct (String.eqb k' k) eqn:E'; [|reflexivity].
      apply String.eqb_eq in E'. congruence.
    + now rewrite IH.
Qed.

Lemma resolve_triggers_each (db : Database) (rows : list TriggerRow) :
  forall tm tm', resolve_triggers db rows tm = Some tm' ->
  forall row, In row rows -> exists cfg, trigger_config db row = Some cfg.
Proof.
  induction rows as [|r rest IH]; intros tm tm' H row Hin; [contradiction|].
  simpl in H. destruct (trigger_config db r) as [cfg|] eqn:Hc; [|discriminate].
  simpl in H. destruct Hin as [<- | Hin]; [now exists cfg|].
  exact (IH _ _ H row Hin).
Qed.

Lemma resolve_triggers_keeps (db : Database) (row : TriggerRow) (cfg : obj)
    (k : string) (rows : list TriggerRow) :
  k = tr_id row \/ k = tr_slug row ->
  forall tm tm', resolve_triggers db rows tm = Some tm' ->
  (forall row', In row' rows ->
     tr_id row' = k \/ tr_slug row' = k ->
     trigger_config db row' = Some cfg) ->
  (In row rows \/ dict_get key_eqb (JStr k) tm = Some (Some cfg)) ->
  dict_get key_eqb (JStr k) tm' = Some (Some cfg).
Proof.
  intros Hk. induction rows as [|r rest IH]; intros tm tm' H Hcol Hhas.
  - simpl in H. injection H as <-. destruct Hhas as [[] | Hhas]. exact Hhas.
  - simpl in H. destruct (trigger_config db r) as [c|] eqn:Hc; [|discriminate].
    simpl in H. apply (IH _ _ H).
    + intros row' Hin. apply Hcol. now right.
    + destruct (string_dec (tr_slug r) k) as [Es | Ns].
      { right. rewrite Es, tm_get_set_same.
        rewrite (Hcol r (or_introl eq_refl) (or_intror Es)) in Hc. congruence. }
      rewrite (tm_get_set_other k (tr_slug r) (Some c) _ Ns).
      destruct (string_dec (tr_id r) k) as [Ei | Ni].
      { right. rewrite Ei, tm_get_set_same.
        rewrite (Hcol r (or_introl eq_refl) (or_introl Ei)) in Hc. congruence. }
      rewrite (tm_get_set_other k (tr_id r) (Some c) _ Ni).
      destruct Hhas as [[-> | Hin] | Hhas]; [|now left | now right].
      destruct Hk as [-> | ->]; congruence.
Qed.


Lemma omem_oset (k k' : string) (v : json) (o : obj) :
  omem k o = true \/ k = k' -> omem k (oset k' v o) = true.
Proof.
  unfold omem, dict_mem, oset. induction o as [|[k0 v0] r IH]; simpl.
  - intros [H | ->]; [discriminate | now rewrite String.eqb_refl].
  - intros H. destruct (String.eqb k0 k') eqn:E; simpl.
    + destruct (String.eqb k0 k) eqn:E'; [reflexivity|].
      destruct H as [H | ->]; [exact H | congruence].
    + destruct (String.eqb k0 k) eqn:E'; [reflexivity|]. apply IH.
      destruct H as [H | ->]; [now left | now right].
Qed.

Lemma omem_update (k : string) (other : obj) :
  forall d, omem k d = true \/ omem k other = true ->
            omem k (dict_update String.eqb d other) = true.
Proof.
  unfold dict_update. induction other as [|[k0 v0] r IH]; intros d H; simpl.
  - destruct H as [H | H]; [exact H | discriminate].
  - apply IH. destruct H as [H | H].
    + left. apply omem_oset. now left.
    + unfold omem, dict_mem in H. simpl in H.
      destruct (String.eqb k0 k) eqn:E.
      * left. apply omem_oset. right. apply String.eqb_eq in E. congruence.
      * right. exact H.
Qed.

Lemma omem_merge (k : string) (t : obj) (triggers : list obj) :
  In t triggers -> omem k t = true -> omem k (merge_triggers triggers) = true.
Proof.
  intros Hin Hk. unfold merge_triggers.
  assert (G : forall acc, omem k acc = true \/ In t triggers ->
                omem k (fold_left (fun all_triggers trigger =>
                                     dict_update String.eqb all_triggers trigger)
                          triggers acc) = true).
  { clear Hin. induction triggers as [|t0 r IH]; intros acc H; simpl.
    - destruct H as [H | []]. exact H.
    - apply IH. destruct H as [H | [-> | H]].
      + left. apply omem_update. now left.
      + left. apply omem_update. now right.
      + now right. }
  apply G. now right.
Qed.


Lemma no_refs_no_rows (self : Runner) (rows : list TriggerRow) :
  filter (select_trigger self []) rows = [].
Proof. apply filter_none. intros row _. reflexivity. Qed.

Lemma load_monitors_try_resolved (self : Runner) (db : Database)
    (monitors triggers : list obj) (row : TriggerRow) :
  load_monitors_try self db = Some (monitors, triggers) ->
  In row (resolved_trigger_rows self db) ->
  exists tm0 tm,
    resolve_triggers db (resolved_trigger_rows self db) tm0 = Some tm
    /\ triggers = present (dict_values tm).
Proof.
  unfold load_monitors_try, resolved_trigger_rows.
  destruct (negb (db_connects db) || db_raises db SelMonitors); [discriminate|].
  destruct (collect_monitors _ _) as [[mons tm0]|]; [|intros _ []].
  simpl. destruct tm0 as [|kv tm0].
  - simpl. rewrite no_refs_no_rows. intros _ [].
  - simpl. destruct (db_raises db SelTriggers || _); [discriminate|].
    destruct (resolve_triggers db _ (kv :: tm0)) as [tm|] eqn:Hr; [|discriminate].
    simpl. intros [= <- <-] _. exists (kv :: tm0), tm. split; [exact Hr | reflexivity].
Qed.

Lemma resolved_stays (db : Database) (row : TriggerRow) (cfg : obj)
    (rows : list TriggerRow) (tm0 tm : TriggerMap) :
  resolve_triggers db rows tm0 = Some tm ->
  In row rows ->
  trigger_config db row = Some cfg ->
  keeps_a_key row rows ->
  In cfg (present (dict_values tm)).
Proof.
  intros Hres Hin Hcfg Hkeep.
  assert (Hget : exists k, dict_get key_eqb (JStr k) tm = Some (Some cfg)).
  { destruct Hkeep as [Hk | Hk].
    - exists (tr_id row).
      apply (resolve_triggers_keeps db row cfg (tr_id row) rows (or_introl eq_refl)
               tm0 tm Hres); [|now left].
      intros row' Hin' Hcol. now rewrite (Hk row' Hin' Hcol).
    - exists (tr_slug row).
      apply (resolve_triggers_keeps db row cfg (tr_slug row) rows (or_intror eq_refl)
               tm0 tm Hres); [|now left].
      intros row' Hin' Hcol. now rewrite (Hk row' Hin' Hcol). }
  destruct Hget as [k Hget]. apply In_present.
  destruct (dict_get_In key_eqb _ _ _ Hget) as [k' Hk'].
  unfold dict_values. exact (in_map snd _ _ Hk').
Qed.




(** ** Dictionaries keyed by Python values *)

Section JsonKeyFacts.
Context {V : Type}.

Lemma jget_set_same (k : string) (v : V) (d : pydict json V) :
  dict_get key_eqb (JStr k) (dict_set key_eqb (JStr k) v d) = Some v.
Proof.
  induction d as [|[k0 v0] r IH]; simpl.
  - now rewrite String.eqb_refl.
  - destruct (key_eqb k0 (JStr k)) eqn:E; simpl; rewrite E; [reflexivity | exact IH].
Qed.

Lemma key_eqb_str (k : json) (s : string) : key_eqb k (JStr s) = true -> k = JStr s.
Proof.
  destruct k as [|b|z|t|l|o]; simpl; try discriminate.
  intros H. apply String.eqb_eq in H. now subst.
Qed.

Lemma jget_set_other (k k' : string) (v : V) (d : pydict json V) :
  k' <> k ->
  dict_get key_eqb (JStr k) (dict_set key_eqb (JStr k') v d)
  = dict_get key_eqb (JStr k) d.
Proof.
  intros Hne. induction d as [|[k0 v0] r IH]; simpl.
  - destruct (String.eqb k' k) eqn:E; [|reflexivity].
    apply String.eqb_eq in E. congruence.
  - destruct (key_eqb k0 (JStr k')) eqn:E; simpl.
    + apply key_eqb_str in E. subst k0. simpl.
      destruct (String.eqb k' k) eqn:E'; [|reflexivity].
      apply String.eqb_eq in E'. congruence.
    + now rewrite IH.
Qed.

Lemma dict_set_In (k k' : json) (c c' : V) (d : pydict json V) :
  In (k, c) (dict_set key_eqb k' c' d) ->
  In (k, c) d \/ (c = c' /\ (k = k' \/ key_eqb k k' = true)).
Proof.
  induction d as [|[k0 c0] r IH]; simpl.
  - intros [[= <- <-] | []]. right. split; [reflexivity | now left].
  - destruct (key_eqb k0 k') eqn:E; simpl.
    + intros [[= <- <-] | H]; [right; split; [reflexivity | now right] | left; now right].
    + intros [H | H]; [left; now left|].
      destruct (IH H) as [H' | H']; [left; now right | now right].
Qed.
End JsonKeyFacts.

Lemma set_all_In (kvs : list (json * obj)) :
  forall m k c, In (k, c) (set_all m kvs) ->
  In (k, c) m \/ exists k', In (k', c) kvs /\ (k = k' \/ key_eqb k k' = true).
Proof.
  unfold set_all. induction kvs as [|[k0 c0] r IH]; intros m k c H; simpl in H.
  - now left.
  - destruct (IH _ _ _ H) as [H1 | [k' [H1 H2]]].
    + destruct (dict_set_In _ _ _ _ _ H1) as [H3 | [-> H3]]; [now left|].
      right. exists k0. split; [now left | exact H3].
    + right. exists k'. split; [now right | exact H2].
Qed.

Lemma load_db_returned (self : Runner) (db : Database) (nets : NetworkMap) :
  snd (load_network_configs_from_db self db) = Returned nets ->
  nets = set_all [] (map (row_entry self)
                       (filter (select_network self) (tbl_networks db))).
Proof.
  destruct (db_connects db) eqn:Hc; [destruct (db_raises db SelNetworks) eqn:Hq|].
  - unfold load_network_configs_from_db. rewrite Hc, Hq. discriminate.
  - destruct (load_db_result self db (conj Hc Hq)) as [H _]. rewrite H.
    destruct (is_nil _); [discriminate | congruence].
  - unfold load_network_configs_from_db. rewrite Hc. discriminate.
Qed.

(** ** ConfigSource: the endpoint column of a loaded row *)



(* ================================================================== *)
(** * Further properties *)

(** ** Dictionaries with string keys *)

Section StrDictFacts.
Context {V : Type}.

Lemma sget_set_same (k : string) (v : V) (d : pydict string V) :
  dict_get String.eqb k (dict_set String.eqb k v d) = Some v.
Proof.
  induction d as [|[k0 v0] r IH]; simpl.
  - now rewrite String.eqb_refl.
  - destruct (String.eqb k0 k) eqn:E; simpl; rewrite E; [reflexivity | exact IH].
Qed.

Lemma sget_set_other (k k' : string) (v : V) (d : pydict string V) :
  k <> k' ->
  dict_get String.eqb k (dict_set String.eqb k' v d) = dict_get String.eqb k d.
Proof.
  intros Hne. induction d as [|[k0 v0] r IH]; simpl.
  - destruct (String.eqb k' k) eqn:E; [|reflexivity].
    apply String.eqb_eq in E. congruence.
  - destruct (String.eqb k0 k') eqn:E; simpl.
    + apply String.eqb_eq in E. subst k0.
      destruct (String.eqb k' k) eqn:E'; [|reflexivity].
      apply String.eqb_eq in E'. congruence.
    + now rewrite IH.
Qed.

Lemma skeys_set (k : string) (v : V) (d : pydict string V) :
  dict_keys (dict_set String.eqb k v d)
  = if dict_mem String.eqb k d then dict_keys d else dict_keys d ++ [k].
Proof.
  unfold dict_mem, dict_keys. induction d as [|[k0 v0] r IH]; simpl; [reflexivity|].
  destruct (String.eqb k0 k) eqn:E; simpl; [reflexivity|].
  rewrite IH. destruct (dict_get String.eqb k r); reflexivity.
Qed.

Lemma smem_In (k : string) (d : pydict string V) :
  dict_mem String.eqb k d = false -> ~ In k (dict_keys d).
Proof.
  unfold dict_mem, dict_keys. induction d as [|[k0 v0] r IH]; simpl; [tauto|].
  destruct (String.eqb k0 k) eqn:E; [discriminate|].
  intros H [Hk | Hk]; [subst; now rewrite String.eqb_refl in E | exact (IH H Hk)].
Qed.
End StrDictFacts.

(** ** ProgressTracker: what the statistics hold *)

Lemma read_markers_app (v : bool) (a b : list MarkerRead) :
  forall st, fst (read_markers v st (a ++ b))
             = fst (read_markers v (fst (read_markers v st a)) b).
Proof.
  induction a as [|r a IH]; intros st; simpl; [reflexivity|].
  destruct (read_marker v st r) as [st1 out1].
  specialize (IH st1).
  destruct (read_markers v st1 (a ++ b)) as [st2 out2].
  destruct (read_markers v st1 a) as [st3 out3]. simpl in *. exact IH.
Qed.

Lemma monitor_loop_reads (v : bool) (ps : list Poll) :
  forall st, fst (monitor_loop v st ps)
             = fst (read_markers v st (flat_map poll_markers ps)).
Proof.
  induction ps as [|p ps IH]; intros st; simpl; [reflexivity|].
  rewrite read_markers_app. unfold poll_once.
  destruct (read_markers v st (poll_markers p)) as [st1 out1]. simpl.
  specialize (IH st1). destruct (monitor_loop v st1 ps) as [st2 out2]. exact IH.
Qed.

Lemma monitor_blocks_reads (v : bool) (st : Stats) (ps : list Poll) :
  fst (monitor_blocks v st ps) = fst (read_markers v st (flat_map poll_markers ps)).
Proof.
  unfold monitor_blocks. rewrite <- monitor_loop_reads.
  destruct (monitor_loop v st ps); reflexivity.
Qed.

Lemma read_marker_span (v : bool) (net : string) (st : Stats) (r : MarkerRead) :
  span (stats_get net (fst (read_marker v st r)))
  = extent (span (stats_get net st)) (blocks_read net [r]).
Proof.
  unfold read_marker, blocks_read, stats_get, stats_set. simpl.
  destruct (String.eqb (mr_network r) net) eqn:E.
  - apply String.eqb_eq in E. subst net.
    destruct (mr_block r) as [b|]; [|reflexivity].
    destruct (dict_get String.eqb (mr_network r) st) as [cur|] eqn:Hc; simpl.
    + destruct (Z.ltb_spec (last_block cur) b).
      * simpl. rewrite sget_set_same. simpl. f_equal. f_equal. lia.
      * simpl. rewrite Hc. simpl. f_equal. f_equal. lia.
    + rewrite sget_set_same. reflexivity.
  - apply String.eqb_neq in E.
    assert (Hne : net <> mr_network r) by congruence.
    destruct (mr_block r) as [b|]; [|reflexivity].
    destruct (dict_get String.eqb (mr_network r) st) as [cur|]; simpl.
    + destruct (last_block cur <? b); simpl; [|reflexivity].
      now rewrite (sget_set_other net (mr_network r) _ st Hne).
    + now rewrite (sget_set_other net (mr_network r) _ st Hne).
Qed.

Lemma read_markers_span (v : bool) (net : string) (rs : list MarkerRead) :
  forall st, span (stats_get net (fst (read_markers v st rs)))
             = extent (span (stats_get net st)) (blocks_read net rs).
Proof.
  induction rs as [|r rs IH]; intros st; [reflexivity|].
  change (r :: rs) with ([r] ++ rs).
  rewrite read_markers_app. rewrite IH.
  unfold blocks_read. rewrite flat_map_app. unfold extent. rewrite fold_left_app.
  f_equal. change (fst (read_markers v st [r])) with
    (fst (let '(st1, out1) := read_marker v st r in
          let '(st2, out2) := (st1, @nil Line) in (st2, out1 ++ out2))).
  pose proof (read_marker_span v net st r) as H.
  destruct (read_marker v st r) as [st1 out1]. exact H.
Qed.

Lemma extent_some (bs : list Z) :
  forall f l, extent (Some (f, l)) bs = Some (f, fold_left Z.max bs l).
Proof.
  induction bs as [|x bs IH]; intros f l; simpl; [reflexivity | apply IH].
Qed.

(** X1. For each network the tracker records the first block number it
    read as [first_block] and the largest one read so far as [last_block];
    a network without a readable marker has no record. *)
Theorem tracker_first_and_largest (v : bool) (polls : list Poll) (net : string) :
  span (stats_get net (fst (monitor_blocks v [] polls)))
  = match blocks_read net (flat_map poll_markers polls) with
    | [] => None
    | b :: bs => Some (b, fold_left Z.max bs b)
    end.
Proof.
  rewrite monitor_blocks_reads, read_markers_span. simpl.
  destruct (blocks_read net (flat_map poll_markers polls)) as [|b bs]; [reflexivity|].
  simpl. apply extent_some.
Qed.

Lemma read_markers_readable (v v' : bool) (rs : list MarkerRead) :
  forall st, fst (read_markers v st rs) = fst (read_markers v' st (filter readable rs)).
Proof.
  induction rs as [|r rs IH]; intros st; [reflexivity|].
  simpl. unfold readable at 1.
  destruct (mr_block r) as [b|] eqn:Hb.
  - simpl.
    assert (H1 : fst (read_marker v st r) = fst (read_marker v' st r)).
    { unfold read_marker. rewrite Hb.
      destruct (stats_get (mr_network r) st) as [cur|]; [|reflexivity].
      destruct (last_block cur <? b); reflexivity. }
    destruct (read_marker v st r) as [st1 out1].
    destruct (read_marker v' st r) as [st1' out1']. simpl in H1. subst st1'.
    specialize (IH st1).
    destruct (read_markers v st1 rs) as [st2 out2].
    destruct (read_markers v' st1 (filter readable rs)) as [st3 out3]. exact IH.
  - unfold read_marker at 1. rewrite Hb. specialize (IH st).
    destruct (read_markers v st rs) as [st2 out2]. exact IH.
Qed.

Lemma markers_only_reads (ps : list Poll) :
  flat_map poll_markers (map markers_only ps) = filter readable (flat_map poll_markers ps).
Proof.
  induction ps as [|p ps IH]; simpl; [reflexivity|].
  now rewrite filter_app, IH.
Qed.

(** X2. The statistics depend only on the markers that could be read:
    unreadable marker files, missed-block files and the verbosity option
    change no counter. *)
Theorem tracker_statistics_ignore_noise (v v' : bool) (st : Stats) (polls : list Poll) :
  fst (monitor_blocks v st polls) = fst (monitor_blocks v' st (map markers_only polls)).
Proof.
  rewrite !monitor_blocks_reads, markers_only_reads. apply read_markers_readable.
Qed.

Lemma fold_max_ge (bs : list Z) : forall l, l <= fold_left Z.max bs l.
Proof.
  induction bs as [|x bs IH]; intros l; simpl; [lia|].
  specialize (IH (Z.max l x)). lia.
Qed.

(** X3. Once a network has a record, later passes never drop it, never
    change its [first_block] and never lower its [last_block]. *)
Theorem tracker_record_is_kept
    (v : bool) (st : Stats) (polls : list Poll) (net : string) (s : NetStats) :
  stats_get net st = Some s ->
  exists s', stats_get net (fst (monitor_blocks v st polls)) = Some s'
             /\ first_block s' = first_block s
             /\ last_block s <= last_block s'.
Proof.
  intros Hs.
  pose proof (read_markers_span v net (flat_map poll_markers polls) st) as H.
  rewrite <- monitor_blocks_reads in H. rewrite Hs in H. simpl in H.
  rewrite extent_some in H.
  destruct (stats_get net (fst (monitor_blocks v st polls))) as [s'|]; [|discriminate].
  simpl in H. injection H as Hf Hl. exists s'. split; [reflexivity|].
  split; [exact Hf|]. rewrite Hl. apply fold_max_ge.
Qed.

Lemma tracker_record_is_kept_witness :
  exists s', stats_get "eth" (fst (monitor_blocks false [("eth", mkStats 100 105 5 2)]
                                      [mkPoll [mkRead "eth" (Some 103) 3;
                                               mkRead "eth" (Some 110) 4] []]))
             = Some s'
             /\ first_block s' = 100 /\ 105 <= last_block s'.
Proof.
  exact (tracker_record_is_kept false [("eth", mkStats 100 105 5 2)]
           [mkPoll [mkRead "eth" (Some 103) 3; mkRead "eth" (Some 110) 4] []]
           "eth" (mkStats 100 105 5 2) eq_refl).
Defined.

Lemma read_marker_positive (v : bool) (st : Stats) (r : MarkerRead) :
  all_ordered st ->
  all_ordered (fst (read_marker v st r))
  /\ Forall progress_positive (snd (read_marker v st r)).
Proof.
  intros Hst. unfold read_marker.
  destruct (mr_block r) as [b|].
  - destruct (stats_get (mr_network r) st) as [cur|] eqn:Hc.
    + pose proof (dict_get_Forall String.eqb ordered _ _ _ Hst Hc) as Ho.
      unfold ordered in Ho.
      destruct (Z.ltb_spec (last_block cur) b); simpl.
      * split.
        -- apply dict_set_Forall; [unfold ordered; simpl; lia | exact Hst].
        -- constructor; [simpl; lia | constructor].
      * split; [exact Hst | constructor].
    + simpl. split; [|constructor].
      apply dict_set_Forall; [unfold ordered; simpl; lia | exact Hst].
  - simpl. split; [exact Hst|]. destruct v; repeat constructor.
Qed.

Lemma read_markers_positive (v : bool) (rs : list MarkerRead) :
  forall st, all_ordered st ->
  all_ordered (fst (read_markers v st rs))
  /\ Forall progress_positive (snd (read_markers v st rs)).
Proof.
  induction rs as [|r rs IH]; intros st Hst; simpl; [split; [exact Hst | constructor]|].
  destruct (read_marker_positive v st r Hst) as [H1 H2].
  destruct (read_marker v st r) as [st1 out1]. simpl in H1, H2.
  destruct (IH st1 H1) as [H3 H4].
  destruct (read_markers v st1 rs) as [st2 out2]. simpl in *.
  split; [exact H3 | apply Forall_app; split; assumption].
Qed.

Lemma check_missed_positive (ms : list MissedRead) :
  Forall progress_positive (flat_map check_missed ms).
Proof.
  induction ms as [|m ms IH]; simpl; [constructor|].
  apply Forall_app. split; [|exact IH]. unfold check_missed.
  destruct (ms_lines m) as [[|l0 rest]|]; try constructor.
  destruct (negb (String.eqb l0 "")); repeat constructor.
Qed.

Lemma monitor_loop_positive (v : bool) (ps : list Poll) :
  forall st, all_ordered st ->
  all_ordered (fst (monitor_loop v st ps))
  /\ Forall progress_positive (snd (monitor_loop v st ps)).
Proof.
  induction ps as [|p ps IH]; intros st Hst; simpl; [split; [exact Hst | constructor]|].
  unfold poll_once.
  destruct (read_markers_positive v (poll_markers p) st Hst) as [H1 H2].
  destruct (read_markers v st (poll_markers p)) as [st1 out1]. simpl in H1, H2.
  destruct (IH st1 H1) as [H3 H4].
  destruct (monitor_loop v st1 ps) as [st2 out2]. simpl in *.
  split; [exact H3|]. apply Forall_app. split; [|exact H4].
  apply Forall_app. split; [exact H2 | apply check_missed_positive].
Qed.

(** X4. In the statistics of a run no record has its first block above
    its last block or a negative count, and every progress line the tracker
    prints reports a strictly positive step and a strictly positive total. *)
Theorem tracker_counts_are_positive (v : bool) (polls : list Poll) :
  (forall net s, stats_get net (fst (monitor_blocks v [] polls)) = Some s ->
     first_block s <= last_block s /\ 0 <= blocks_processed s)
  /\ Forall progress_positive (snd (monitor_blocks v [] polls)).
Proof.
  pose proof (monitor_blocks_ok v polls) as Hok.
  destruct (monitor_loop_positive v polls [] (Forall_nil _)) as [Hord Hpos].
  unfold monitor_blocks in *.
  destruct (monitor_loop v [] polls) as [st out]. simpl in *. split.
  - intros net s Hs.
    pose proof (dict_get_Forall String.eqb ordered _ _ _ Hord Hs) as Ho.
    pose proof (dict_get_Forall String.eqb stats_ok _ _ _ Hok Hs) as Hk.
    unfold ordered in Ho. unfold stats_ok in Hk. lia.
  - constructor; [exact I | exact Hpos].
Qed.

Lemma tracker_counts_are_positive_witness :
  first_block (mkStats 100 104 4 3) <= last_block (mkStats 100 104 4 3)
  /\ 0 <= blocks_processed (mkStats 100 104 4 3).
Proof.
  exact (proj1 (tracker_counts_are_positive false polls_two) "eth"
           (mkStats 100 104 4 3) eq_refl).
Defined.

Lemma stats_set_nodup (n : string) (s : NetStats) (st : Stats) :
  NoDup (dict_keys st) -> NoDup (dict_keys (stats_set n s st)).
Proof.
  intros H. unfold stats_set. rewrite skeys_set.
  destruct (dict_mem String.eqb n st) eqn:E; [exact H|].
  apply NoDup_app; [exact H | repeat constructor; intros [] |].
  intros a Ha [<- | []]. now apply (smem_In n st E).
Qed.

Lemma read_markers_nodup (v : bool) (rs : list MarkerRead) :
  forall st, NoDup (dict_keys st) -> NoDup (dict_keys (fst (read_markers v st rs))).
Proof.
  induction rs as [|r rs IH]; intros st Hst; simpl; [exact Hst|].
  assert (H1 : NoDup (dict_keys (fst (read_marker v st r)))).
  { unfold read_marker. destruct (mr_block r) as [b|]; [|exact Hst].
    destruct (stats_get (mr_network r) st) as [cur|].
    - destruct (last_block cur <? b); [now apply stats_set_nodup | exact Hst].
    - now apply stats_set_nodup. }
  destruct (read_marker v st r) as [st1 out1]. simpl in H1.
  specialize (IH st1 H1). destruct (read_markers v st1 rs) as [st2 out2]. exact IH.
Qed.

Lemma smem_existsb {V : Type} (n : string) (d : pydict string V) :
  dict_mem String.eqb n d = existsb (String.eqb n) (dict_keys d).
Proof.
  unfold dict_mem, dict_keys. induction d as [|[k0 v0] r IH]; simpl; [reflexivity|].
  rewrite (String.eqb_sym n k0). destruct (String.eqb k0 n); [reflexivity | exact IH].
Qed.

Lemma read_marker_keys (v : bool) (st : Stats) (r : MarkerRead) :
  dict_keys (fst (read_marker v st r))
  = if readable r && negb (existsb (String.eqb (mr_network r)) (dict_keys st))
    then dict_keys st ++ [mr_network r] else dict_keys st.
Proof.
  unfold read_marker, readable, stats_get, stats_set.
  rewrite <- smem_existsb. unfold dict_mem.
  destruct (mr_block r) as [b|]; [|reflexivity]. simpl.
  destruct (dict_get String.eqb (mr_network r) st) as [cur|] eqn:Hc; simpl.
  - destruct (last_block cur <? b); [|reflexivity]. simpl.
    rewrite skeys_set. unfold dict_mem. now rewrite Hc.
  - rewrite skeys_set. unfold dict_mem. now rewrite Hc.
Qed.

Lemma read_markers_keys (v : bool) (rs : list MarkerRead) :
  forall st,
    dict_keys (fst (read_markers v st rs))
    = fold_left (fun seen r =>
                   if readable r && negb (existsb (String.eqb (mr_network r)) seen)
                   then seen ++ [mr_network r] else seen) rs (dict_keys st).
Proof.
  induction rs as [|r rs IH]; intros st; [reflexivity|].
  simpl. rewrite <- (read_marker_keys v st r).
  destruct (read_marker v st r) as [st1 out1]. simpl.
  specialize (IH st1). destruct (read_markers v st1 rs) as [st2 out2]. exact IH.
Qed.

(** X5. The final report has one line for each network of which a
    marker could be read, in the order in which the networks were first seen,
    and names no network twice. *)
Theorem final_report_one_line_per_network (v : bool) (polls : list Poll) :
  let stats := fst (monitor_blocks v [] polls) in
  report_networks (final_statistics stats) = first_seen (flat_map poll_markers polls)
  /\ dict_keys stats = first_seen (flat_map poll_markers polls)
  /\ NoDup (first_seen (flat_map poll_markers polls)).
Proof.
  cbv zeta.
  assert (Hk : dict_keys (fst (monitor_blocks v [] polls))
               = first_seen (flat_map poll_markers polls)).
  { rewrite monitor_blocks_reads. apply (read_markers_keys v _ []). }
  split; [|split; [exact Hk|]].
  - rewrite <- Hk. generalize (fst (monitor_blocks v [] polls)) as st. intros st.
    unfold final_statistics. destruct st as [|kv st]; [reflexivity|].
    change (is_nil (kv :: st)) with false. cbv iota. simpl.
    f_equal. induction st as [|kv' st IH]; simpl; [reflexivity | now rewrite IH].
  - rewrite <- Hk, monitor_blocks_reads. apply read_markers_nodup. constructor.
Qed.


(** ** ConfigSource: which records a load returns *)



Lemma load_files_returned (self : Runner) (dir : option (list NetworkFile))
    (nets : NetworkMap) :
  snd (load_network_configs_from_files self dir) = Returned nets ->
  exists files, dir = Some files
                /\ nets = set_all [] (present (map (loaded_entry self) files)).
Proof.
  destruct dir as [files|]; [|discriminate].
  destruct (load_files_result self files) as [H _]. rewrite H.
  destruct (is_nil _); [discriminate|]. intros [= <-]. now exists files.
Qed.

Lemma In_present_inv {A : Type} (l : list (option A)) (a : A) :
  In a (present l) -> In (Some a) l.
Proof.
  induction l as [|[x|] r IH]; simpl; [contradiction| |].
  - intros [-> | H]; [now left | right; now apply IH].
  - intros H. right. now apply IH.
Qed.

Lemma loaded_entry_selected (self : Runner) (f : NetworkFile) (k : json) (c : obj) :
  networks self <> [] -> loaded_entry self f = Some (k, c) ->
  in_selection k (networks self) = true.
Proof.
  intros Hsel. unfold loaded_entry, load_file.
  destruct (nf_parsed f) as [[| | | |l|config]|]; try discriminate.
  rewrite (is_nil_false _ Hsel). simpl.
  destruct (in_selection _ (networks self)) eqn:E; simpl; [|discriminate].
  destruct (hashable _); [|discriminate]. intros [= <- _]. exact E.
Qed.

Lemma in_selection_str (k : json) (sel : list string) :
  in_selection k sel = true -> exists s, k = JStr s /\ In s sel.
Proof.
  unfold in_selection. intros H. apply existsb_exists in H.
  destruct H as [s [Hs H]]. destruct k as [| | |t| |]; simpl in H; try discriminate.
  apply String.eqb_eq in H. subst t. now exists s.
Qed.

Lemma in_selection_key (k k' : json) (sel : list string) :
  in_selection k' sel = true -> k = k' \/ key_eqb k k' = true ->
  in_selection k sel = true.
Proof.
  intros H [-> | Hk]; [exact H|].
  destruct (in_selection_str _ _ H) as [s [-> _]].
  now rewrite (key_eqb_str k s Hk).
Qed.

(** X6. With a non-empty selection, either backend returns only networks
    whose slug is one of the requested ones. *)
Theorem load_returns_only_selected
    (self : Runner) (db : Database) (dir : option (list NetworkFile))
    (nets : NetworkMap) :
  snd (load_network_configs self db dir) = Returned nets ->
  networks self <> [] ->
  forall k, In k (dict_keys nets) ->
    exists s, k = JStr s /\ In s (networks self).
Proof.
  intros Hload Hsel k Hk. apply in_selection_str.
  unfold dict_keys in Hk. apply in_map_iff in Hk. destruct Hk as [[k0 c] [<- Hin]].
  simpl. unfold load_network_configs in Hload.
  destruct (use_database self).
  - rewrite (load_db_returned self db nets Hload) in Hin.
    destruct (set_all_In _ _ _ _ Hin) as [[] | [k' [Hin' Hk']]].
    apply in_map_iff in Hin'. destruct Hin' as [row [[= <- _] Hrow]].
    apply filter_In in Hrow. destruct Hrow as [_ Hrow]. unfold select_network in Hrow.
    rewrite (is_nil_false _ Hsel) in Hrow. simpl in Hrow.
    apply andb_true_iff in Hrow. destruct Hrow as [_ Hrow].
    apply (in_selection_key k0 (JStr (nr_slug row))); [|exact Hk'].
    unfold in_selection. simpl. exact Hrow.
  - destruct (load_files_returned self dir nets Hload) as [files [_ ->]].
    destruct (set_all_In _ _ _ _ Hin) as [[] | [k' [Hin' Hk']]].
    apply In_present_inv in Hin'. apply in_map_iff in Hin'.
    destruct Hin' as [f [Hf _]].
    apply (in_selection_key k0 k'); [|exact Hk'].
    exact (loaded_entry_selected self f k' c Hsel Hf).
Qed.

Lemma load_returns_only_selected_witness :
  exists s, JStr "xlm" = JStr s
            /\ In s (networks (mkRunner ["xlm"] false false true "tenant" "config" "data")).
Proof.
  refine (load_returns_only_selected
            (mkRunner ["xlm"] false false true "tenant" "config" "data") db_two None
            [row_entry (mkRunner ["xlm"] false false true "tenant" "config" "data") row_xlm]
            eq_refl _ (JStr "xlm") (or_introl eq_refl)).
  discriminate.
Defined.

(** X7. Every network the relational backend returns comes from a row of
    the runner's tenant that is active and not deleted: it is keyed by that
    row's slug and is that row's configuration. *)
Theorem load_db_returns_only_tenant_rows
    (self : Runner) (db : Database) (nets : NetworkMap) (k : json) (c : obj) :
  snd (load_network_configs_from_db self db) = Returned nets ->
  In (k, c) nets ->
  exists row, In row (tbl_networks db)
              /\ nr_tenant_id row = tenant_id self
              /\ nr_active row = true
              /\ nr_deleted_at row = None
              /\ k = JStr (nr_slug row)
              /\ c = row_config self row.
Proof.
  intros Hload Hin. rewrite (load_db_returned self db nets Hload) in Hin.
  destruct (set_all_In _ _ _ _ Hin) as [[] | [k' [Hin' Hk']]].
  apply in_map_iff in Hin'. destruct Hin' as [row [[= <- <-] Hrow]].
  apply filter_In in Hrow. destruct Hrow as [Htbl Hrow].
  unfold select_network in Hrow.
  apply andb_true_iff in Hrow. destruct Hrow as [Hrow _].
  apply andb_true_iff in Hrow. destruct Hrow as [Hrow Hdel].
  apply andb_true_iff in Hrow. destruct Hrow as [Hten Hact].
  exists row. split; [exact Htbl|]. split; [now apply String.eqb_eq|].
  split; [exact Hact|]. split.
  - destruct (nr_deleted_at row); [discriminate | reflexivity].
  - split; [|reflexivity].
    destruct Hk' as [-> | Hk']; [reflexivity | now apply key_eqb_str].
Qed.

Lemma load_db_returns_only_tenant_rows_witness :
  exists row, In row (tbl_networks db_two)
              /\ nr_tenant_id row = "tenant"
              /\ nr_active row = true
              /\ nr_deleted_at row = None
              /\ JStr "eth" = JStr (nr_slug row)
              /\ row_config runner_db row_eth = row_config runner_db row.
Proof.
  exact (load_db_returns_only_tenant_rows runner_db db_two
           [row_entry runner_db row_eth; row_entry runner_db row_xlm]
           (JStr "eth") (row_config runner_db row_eth) eq_refl (or_introl eq_refl)).
Defined.

Lemma loaded_entry_unparsed (self : Runner) (f : NetworkFile) :
  parses f = false -> loaded_entry self f = None.
Proof.
  unfold parses, loaded_entry, load_file.
  destruct (nf_parsed f); [discriminate | reflexivity].
Qed.

Lemma present_filter {A B : Type} (g : A -> option B) (p : A -> bool) (l : list A) :
  (forall a, p a = false -> g a = None) ->
  present (map g (filter p l)) = present (map g l).
Proof.
  intros H. induction l as [|a r IH]; simpl; [reflexivity|].
  destruct (p a) eqn:E; simpl.
  - destruct (g a); now rewrite IH.
  - now rewrite (H a E).
Qed.

Lemma add_file_keeps_lines (self : Runner) (files : list NetworkFile) (l : Line) :
  forall acc, In l (snd acc) -> In l (snd (fold_left (add_file self) files acc)).
Proof.
  induction files as [|f files IH]; intros acc H; simpl; [exact H|].
  apply IH. unfold add_file.
  destruct (load_file self f); simpl; try exact H; apply in_or_app; now left.
Qed.

Lemma add_file_warns (self : Runner) (files : list NetworkFile) (f : NetworkFile) :
  In f files -> load_file self f = Failed ->
  forall acc, In (LFailedFile (nf_stem f)) (snd (fold_left (add_file self) files acc)).
Proof.
  intros Hin Hf. induction files as [|g files IH]; [contradiction|].
  intros acc. simpl. destruct Hin as [-> | Hin].
  - apply add_file_keeps_lines. unfold add_file. rewrite Hf. simpl.
    apply in_or_app. right. now left.
  - now apply IH.
Qed.

(** X8. A network file that cannot be read or parsed is skipped: the load
    gives what it would give without that file, and prints a warning that
    names it. *)
Theorem unreadable_files_are_skipped (self : Runner) (files : list NetworkFile) :
  snd (load_network_configs_from_files self (Some files))
  = snd (load_network_configs_from_files self (Some (filter parses files)))
  /\ forall f, In f files -> parses f = false ->
       In (LFailedFile (nf_stem f))
          (fst (load_network_configs_from_files self (Some files))).
Proof.
  split.
  - destruct (load_files_result self files) as [H1 _].
    destruct (load_files_result self (filter parses files)) as [H2 _].
    rewrite H1, H2.
    now rewrite (present_filter (loaded_entry self) parses files
                   (loaded_entry_unparsed self)).
  - intros f Hin Hp. unfold load_network_configs_from_files.
    assert (Hf : load_file self f = Failed).
    { unfold load_file. unfold parses in Hp.
      destruct (nf_parsed f); [discriminate | reflexivity]. }
    pose proof (add_file_warns self files f Hin Hf ([], [])) as H.
    destruct (fold_left (add_file self) files ([], [])) as [nets out]. simpl in H.
    destruct (is_nil nets); simpl; [apply in_or_app; now left | exact H].
Qed.

Lemma unreadable_files_are_skipped_witness :
  In (LFailedFile "broken")
     (fst (load_network_configs_from_files runner_files (Some files_broken)))
  /\ snd (load_network_configs_from_files runner_files (Some files_broken))
     = snd (load_network_configs_from_files runner_files (Some files_eth)).
Proof.
  destruct (unreadable_files_are_skipped runner_files files_broken) as [H1 H2].
  split.
  - exact (H2 (mkNetworkFile "broken" None) (or_introl eq_refl) eq_refl).
  - exact H1.
Defined.

Lemma set_all_app (a b : list (json * obj)) (m : NetworkMap) :
  set_all m (a ++ b) = set_all (set_all m a) b.
Proof. unfold set_all. apply fold_left_app. Qed.

Lemma nets_get_later_rows (self : Runner) (k : string) (c : obj)
    (post : list NetworkRow) :
  (forall r', In r' post -> nr_slug r' <> k) ->
  forall m, nets_get (JStr k) m = Some c ->
            nets_get (JStr k) (set_all m (map (row_entry self) post)) = Some c.
Proof.
  intros Hpost. induction post as [|r post IH]; intros m Hm; simpl; [exact Hm|].
  apply IH.
  - intros r' Hr'. apply Hpost. now right.
  - unfold nets_get, nets_set. simpl.
    rewrite jget_set_other; [exact Hm | apply Hpost; now left].
Qed.

(** X9. When several selected rows carry the same slug, the network
    returned under that slug is the configuration of the last of them. *)
Theorem load_db_last_row_wins
    (self : Runner) (db : Database) (pre post : list NetworkRow) (r : NetworkRow) :
  db_up db ->
  filter (select_network self) (tbl_networks db) = pre ++ r :: post ->
  (forall r', In r' post -> nr_slug r' <> nr_slug r) ->
  exists nets,
    snd (load_network_configs_from_db self db) = Returned nets
    /\ nets_get (JStr (nr_slug r)) nets = Some (row_config self r).
Proof.
  intros Hup Hrows Hpost.
  destruct (load_db_result self db Hup) as [Hres _]. rewrite Hrows in Hres.
  rewrite map_app, set_all_app in Hres. simpl in Hres.
  rewrite set_all_not_nil in Hres by (left; apply nets_set_not_nil).
  eexists. split; [exact Hres|].
  apply nets_get_later_rows; [exact Hpost|].
  unfold nets_get, nets_set. apply jget_set_same.
Qed.

Lemma load_db_last_row_wins_witness :
  exists nets,
    snd (load_network_configs_from_db runner_db db_dup) = Returned nets
    /\ nets_get (JStr "eth") nets = Some (row_config runner_db row_eth_new).
Proof.
  refine (load_db_last_row_wins runner_db db_dup [row_eth; row_xlm] [] row_eth_new
            (conj eq_refl eq_refl) eq_refl _).
  intros r' [].
Defined.

(** ** ConfigSource: the endpoint column and the store-blocks flag *)



(** X11. For a network loaded from a row and then written by the
    synthesis, the written [store_blocks] is true exactly when the row's
    flag is true or the store-blocks option is set; a NULL flag counts as
    false. *)
Theorem store_blocks_of_written_row (self : Runner) (row : NetworkRow) (b : bool) :
  nr_store_blocks row = JBool b \/ (nr_store_blocks row = JNull /\ b = false) ->
  oget "store_blocks" (network_copy self (row_config self row))
  = Some (JBool (b || store_blocks self)).
Proof.
  intros H. unfold network_copy.
  destruct (store_blocks self) eqn:Hs.
  - rewrite oget_oset_same. now rewrite orb_true_r.
  - unfold row_config, oget. simpl. rewrite Hs.
    destruct H as [-> | [-> ->]]; [destruct b|]; reflexivity.
Qed.

Lemma store_blocks_of_written_row_witness :
  oget "store_blocks" (network_copy runner_store (row_config runner_store row_eth_new))
  = Some (JBool true).
Proof.
  exact (store_blocks_of_written_row runner_store row_eth_new false
           (or_intror (conj eq_refl eq_refl))).
Defined.

(** ** ConfigSource: monitors and trigger references *)

Lemma note_ref_unresolved (k : json) (tm : TriggerMap) :
  unresolved tm -> unresolved (note_ref k tm).
Proof.
  intros H. unfold note_ref. destruct (dict_mem key_eqb k tm); [exact H|].
  apply (dict_set_Forall key_eqb (fun v => v = None)); [reflexivity | exact H].
Qed.

Lemma collect_refs_unresolved (refs : list json) :
  forall tm tm', unresolved tm -> collect_refs tm refs = Some tm' -> unresolved tm'.
Proof.
  induction refs as [|r refs IH]; intros tm tm' Htm H; simpl in H.
  - now injection H as <-.
  - destruct (collect_ref tm r) as [tm1|] eqn:E; [|discriminate]. simpl in H.
    apply (IH tm1 tm'); [|exact H].
    unfold collect_ref in E. destruct r as [| | |s|l|o].
    + now injection E as <-.
    + now injection E as <-.
    + now injection E as <-.
    + injection E as <-. now apply note_ref_unresolved.
    + now injection E as <-.
    + destruct (oget "id" o) as [i|]; [|now injection E as <-].
      destruct (hashable i); [|discriminate].
      injection E as <-. now apply note_ref_unresolved.
Qed.

Lemma collect_monitors_spec (rows : list MonitorRow) :
  forall acc ms tm, collect_monitors rows acc = Some (ms, tm) ->
  ms = fst acc ++ map monitor_config rows
  /\ (unresolved (snd acc) -> unresolved tm).
Proof.
  induction rows as [|row rows IH]; intros acc ms tm H; simpl in H.
  - injection H as ->. simpl. split; [now rewrite app_nil_r | auto].
  - destruct (mon_triggers row) as [refs|]; [|discriminate]. simpl in H.
    destruct (collect_refs (snd acc) refs) as [tm1|] eqn:E; [|discriminate].
    simpl in H. destruct (IH _ _ _ H) as [H1 H2]. simpl in H1, H2. split.
    + rewrite H1, <- app_assoc. reflexivity.
    + intros Hacc. apply H2. exact (collect_refs_unresolved refs _ _ Hacc E).
Qed.

Lemma collect_monitors_null (rows : list MonitorRow) (row : MonitorRow) :
  In row rows -> mon_triggers row = None ->
  forall acc, collect_monitors rows acc = None.
Proof.
  intros Hin Hnull. induction rows as [|r rows IH]; [contradiction|].
  intros acc. simpl. destruct Hin as [-> | Hin].
  - now rewrite Hnull.
  - destruct (mon_triggers r) as [refs|]; [|reflexivity]. simpl.
    destruct (collect_refs (snd acc) refs); [|reflexivity]. simpl. now apply IH.
Qed.

Lemma load_monitors_try_monitors (self : Runner) (db : Database)
    (monitors triggers : list obj) :
  load_monitors_try self db = Some (monitors, triggers) ->
  monitors = map monitor_config (selected_monitors self db).
Proof.
  unfold load_monitors_try, selected_monitors.
  destruct (negb (db_connects db) || db_raises db SelMonitors); [discriminate|].
  destruct (collect_monitors _ _) as [[ms tm0]|] eqn:E; [|discriminate]. simpl.
  destruct (collect_monitors_spec _ _ _ _ E) as [-> _].
  destruct (if is_nil tm0 then _ else _) as [tm|]; [|discriminate].
  simpl. now intros [= <- _].
Qed.

(** X12. When the loader succeeds, the monitors it returns are the rows
    of the tenant that are active, not paused and not deleted, in the order
    of the query: each is named by its row's slug and marked unpaused. *)
Theorem loaded_monitors_are_active
    (self : Runner) (db : Database) (monitors triggers : list obj) :
  load_monitors_try self db = Some (monitors, triggers) ->
  monitors = map monitor_config (selected_monitors self db)
  /\ forall m, In m monitors ->
       oget "paused" m = Some (JBool false)
       /\ exists row, In row (tbl_monitors db)
                      /\ mon_tenant_id row = tenant_id self
                      /\ mon_active row = true
                      /\ mon_deleted_at row = None
                      /\ m = monitor_config row
                      /\ oget "name" m = Some (JStr (mon_slug row)).
Proof.
  intros H. pose proof (load_monitors_try_monitors self db monitors triggers H) as Hm.
  split; [exact Hm|]. intros m Hin. rewrite Hm in Hin.
  apply in_map_iff in Hin. destruct Hin as [row [<- Hrow]].
  apply filter_In in Hrow. destruct Hrow as [Htbl Hsel]. unfold select_monitor in Hsel.
  apply andb_true_iff in Hsel. destruct Hsel as [Hsel Hdel].
  apply andb_true_iff in Hsel. destruct Hsel as [Hsel Hpaused].
  apply andb_true_iff in Hsel. destruct Hsel as [Hten Hact].
  split.
  - unfold monitor_config, oget. simpl.
    destruct (mon_paused row); [discriminate | reflexivity].
  - exists row. split; [exact Htbl|]. split; [now apply String.eqb_eq|].
    split; [exact Hact|]. split; [|split; reflexivity].
    destruct (mon_deleted_at row); [discriminate | reflexivity].
Qed.

Lemma loaded_monitors_are_active_witness :
  oget "paused" (monitor_config mon_transfers) = Some (JBool false).
Proof.
  destruct (loaded_monitors_are_active runner_db db_slack
              [monitor_config mon_transfers]
              [flat_trigger trig_alerts; flat_trigger trig_alerts] eq_refl) as [_ H].
  exact (proj1 (H (monitor_config mon_transfers) (or_introl eq_refl))).
Defined.

(** X13. One selected monitor with a NULL [triggers] column makes the
    whole load fail: the failure is printed, no monitor and no trigger is
    returned, and the synthesis then writes the default monitors and an empty
    trigger file as if the tenant had no monitors. *)
Theorem null_triggers_column_fails_load
    (self : Runner) (db : Database) (row : MonitorRow) :
  In row (selected_monitors self db) ->
  mon_triggers row = None ->
  load_monitor_and_trigger_configs_from_db self db
  = ([LFailedDbMonitors], Returned ([], []))
  /\ (use_database self = true -> forall tmp nets,
        monitor_writes (sy_writes (create_minimal_configs self db tmp nets))
        = _create_minimal_monitor_configs nets
        /\ In (mkWrite "triggers" "empty.json" (JObj []))
              (sy_writes (create_minimal_configs self db tmp nets))).
Proof.
  intros Hin Hnull.
  assert (Hload : load_monitor_and_trigger_configs_from_db self db
                  = ([LFailedDbMonitors], Returned ([], []))).
  { unfold load_monitor_and_trigger_configs_from_db, load_monitors_try.
    destruct (negb (db_connects db) || db_raises db SelMonitors); [reflexivity|].
    unfold selected_monitors in Hin.
    now rewrite (collect_monitors_null _ row Hin Hnull). }
  split; [exact Hload|]. intros Hdb tmp nets. split.
  - apply monitor_writes_synthesis. right. eexists. eexists. exact Hload.
  - unfold create_minimal_configs. rewrite Hdb, Hload. simpl.
    apply in_or_app. right. apply in_or_app. right. now left.
Qed.

Lemma null_triggers_column_fails_load_witness :
  load_monitor_and_trigger_configs_from_db runner_db db_null_triggers
  = ([LFailedDbMonitors], Returned ([], [])).
Proof.
  exact (proj1 (null_triggers_column_fails_load runner_db db_null_triggers mon_null
                  (or_intror (or_introl eq_refl)) eq_refl)).
Defined.

Lemma present_unresolved (tm : TriggerMap) :
  unresolved tm -> present (dict_values tm) = [].
Proof.
  unfold unresolved, dict_values. induction tm as [|[k v] tm IH]; intros H;
    [reflexivity|].
  inversion H as [|? ? Hv Htm]; subst. simpl in Hv. subst v. simpl. now apply IH.
Qed.

Lemma load_monitors_try_dangling (self : Runner) (db : Database)
    (monitors triggers : list obj) :
  load_monitors_try self db = Some (monitors, triggers) ->
  resolved_trigger_rows self db = [] ->
  triggers = [].
Proof.
  unfold load_monitors_try, resolved_trigger_rows.
  destruct (negb (db_connects db) || db_raises db SelMonitors); [discriminate|].
  destruct (collect_monitors _ _) as [[ms tm0]|] eqn:E; [|discriminate]. simpl.
  destruct (collect_monitors_spec _ _ _ _ E) as [_ Hun].
  specialize (Hun (Forall_nil _)).
  intros H Hrows. rewrite Hrows in H.
  destruct (is_nil tm0).
  - simpl in H. injection H as _ <-. now apply present_unresolved.
  - destruct (db_raises db SelTriggers || _); [discriminate|].
    simpl in H. injection H as _ <-. now apply present_unresolved.
Qed.

(** X14. When the loader succeeds (the connection and the statements
    work, every [triggers] column is an array and every reference is a string
    or NULL) and none of the monitors' references resolves to a trigger row,
    the references are dropped without a word: the loader returns no trigger,
    the synthesis writes the empty trigger file, and every monitor file still
    carries the references of its row. *)
Theorem dangling_references_are_dropped
    (self : Runner) (db : Database) (monitors triggers : list obj) :
  load_monitors_try self db = Some (monitors, triggers) ->
  resolved_trigger_rows self db = [] ->
  triggers = []
  /\ (use_database self = true -> forall tmp nets,
        In (mkWrite "triggers" "empty.json" (JObj []))
           (sy_writes (create_minimal_configs self db tmp nets))
        /\ forall row, In row (selected_monitors self db) ->
             In (mkWrite "monitors" (mon_slug row ++ ".json") (JObj (monitor_config row)))
                (sy_writes (create_minimal_configs self db tmp nets))
             /\ oget "triggers" (monitor_config row) = Some (opt_arr (mon_triggers row))).
Proof.
  intros Hload Hrows.
  pose proof (load_monitors_try_dangling self db monitors triggers Hload Hrows) as Ht.
  pose proof (load_monitors_try_monitors self db monitors triggers Hload) as Hm.
  split; [exact Ht|]. intros Hdb tmp nets.
  unfold create_minimal_configs. rewrite Hdb.
  unfold load_monitor_and_trigger_configs_from_db. rewrite Hload. subst triggers.
  simpl. split.
  - apply in_or_app. right. apply in_or_app. right. now left.
  - intros row Hrow. split; [|reflexivity].
    apply in_or_app. right. apply in_or_app. left.
    assert (Hin : In (monitor_config row) monitors).
    { rewrite Hm. now apply in_map. }
    destruct monitors as [|m ms]; [contradiction|]. simpl is_nil. cbv iota.
    change (mkWrite "monitors" (mon_slug row ++ ".json") (JObj (monitor_config row)))
      with (write_monitor (monitor_config row)).
    now apply in_map.
Qed.

Lemma dangling_references_are_dropped_witness :
  load_monitors_try runner_db db_dangling = Some ([monitor_config mon_transfers], [])
  /\ In (mkWrite "triggers" "empty.json" (JObj []))
        (sy_writes (create_minimal_configs runner_db db_dangling "tmp" nets_eth))
  /\ oget "triggers" (monitor_config mon_transfers) = Some (JArr [JStr "alerts"]).
Proof.
  split; [reflexivity|].
  destruct (dangling_references_are_dropped runner_db db_dangling
              [monitor_config mon_transfers] [] eq_refl eq_refl) as [_ H].
  destruct (H eq_refl "tmp" nets_eth) as [H1 H2].
  split; [exact H1|]. exact (proj2 (H2 mon_transfers (or_introl eq_refl))).
Defined.

Lemma trigger_config_detail (db : Database) (row : TriggerRow) (cfg c : obj) :
  with_detail db row cfg -> trigger_config db row = Some c -> c = cfg.
Proof.
  unfold with_detail, trigger_config, fetch_email, fetch_webhook.
  intros [[He [e [Hf ->]]] | [He [Hw [w [Hf ->]]]]]; rewrite He; try rewrite Hw.
  - destruct (db_raises db SelEmail); simpl; [discriminate|]. rewrite Hf. congruence.
  - destruct (db_raises db SelWebhook); simpl; [discriminate|]. rewrite Hf. congruence.
Qed.

Lemma with_detail_slug (db : Database) (row : TriggerRow) (cfg : obj) :
  with_detail db row cfg -> dict_keys cfg = [tr_slug row].
Proof.
  intros [[_ [e [_ ->]]] | [_ [_ [w [_ ->]]]]]; reflexivity.
Qed.

(** X15. When the loader succeeds, a trigger row returned by the
    triggers query that has a detail record of its type, and one of whose two
    keys, id or slug, is taken by no other returned row, comes out of the
    loader as a one-entry mapping keyed by its slug, and the merged trigger
    file has an entry under that slug. *)
Theorem trigger_with_detail_is_keyed_by_slug
    (self : Runner) (db : Database) (row : TriggerRow) (cfg : obj)
    (monitors triggers : list obj) :
  load_monitors_try self db = Some (monitors, triggers) ->
  In row (resolved_trigger_rows self db) ->
  with_detail db row cfg ->
  keeps_a_key row (resolved_trigger_rows self db) ->
  In cfg triggers
  /\ dict_keys cfg = [tr_slug row]
  /\ omem (tr_slug row) (merge_triggers triggers) = true
  /\ (use_database self = true -> forall tmp nets,
        In (mkWrite "triggers" "database_triggers.json" (JObj (merge_triggers triggers)))
           (sy_writes (create_minimal_configs self db tmp nets))).
Proof.
  intros Hload Hin Hd Hkeep.
  destruct (load_monitors_try_resolved self db monitors triggers row Hload Hin)
    as [tm0 [tm [Hres Htr]]].
  assert (Hcfg : trigger_config db row = Some cfg).
  { destruct (resolve_triggers_each db _ _ _ Hres row Hin) as [c Hc].
    now rewrite (trigger_config_detail db row cfg c Hd Hc) in Hc. }
  assert (Hmem : In cfg triggers).
  { subst triggers. exact (resolved_stays db row cfg _ tm0 tm Hres Hin Hcfg Hkeep). }
  pose proof (with_detail_slug db row cfg Hd) as Hkeys.
  split; [exact Hmem|]. split; [exact Hkeys|]. split.
  - apply (omem_merge (tr_slug row) cfg triggers Hmem).
    destruct cfg as [|[k v] [|kv r]]; try discriminate.
    injection Hkeys as ->. unfold omem, dict_mem. simpl.
    now rewrite String.eqb_refl.
  - intros Hdb tmp nets. unfold create_minimal_configs. rewrite Hdb.
    unfold load_monitor_and_trigger_configs_from_db. rewrite Hload. simpl.
    apply in_or_app. right. apply in_or_app. right.
    unfold write_triggers. destruct triggers; [contradiction | now left].
Qed.

Lemma trigger_with_detail_is_keyed_by_slug_witness :
  omem "notify"
    (merge_triggers [webhook_trigger trig_hook hook_detail;
                     webhook_trigger trig_hook hook_detail]) = true
  /\ load_monitors_try runner_db db_hook
     = Some ([monitor_config mon_hook],
             [webhook_trigger trig_hook hook_detail;
              webhook_trigger trig_hook hook_detail]).
Proof.
  split; [|reflexivity].
  refine (proj1 (proj2 (proj2
            (trigger_with_detail_is_keyed_by_slug runner_db db_hook trig_hook
               (webhook_trigger trig_hook hook_detail)
               [monitor_config mon_hook]
               [webhook_trigger trig_hook hook_detail;
                webhook_trigger trig_hook hook_detail]
               eq_refl (or_introl eq_refl) _ _)))).
  - right. split; [reflexivity|]. split; [reflexivity|].
    exists hook_detail. split; reflexivity.
  - left. intros row' [<- | []] _. reflexivity.
Defined.

(** ** ConfigSynthesizer: the layout written *)





Lemma write_monitors_dir (monitors : list obj) :
  forall w, In w (map write_monitor monitors) -> fw_dir w = "monitors".
Proof.
  intros w Hw. apply in_map_iff in Hw. now destruct Hw as [m [<- _]].
Qed.

Lemma minimal_monitors_dir (nets : NetworkMap) :
  forall w, In w (_create_minimal_monitor_configs nets) -> fw_dir w = "monitors".
Proof.
  intros w Hw. apply In_minimal_monitors in Hw.
  now destruct Hw as [[_ ->] | [_ ->]].
Qed.

Lemma write_triggers_one (triggers : list obj) :
  exists w, write_triggers triggers = [w] /\ fw_dir w = "triggers".
Proof.
  unfold write_triggers. destruct (is_nil triggers); eexists; split; reflexivity.
Qed.

(** The three parts of what the synthesis writes. *)
Lemma synthesis_parts (self : Runner) (db : Database) (tmp : string) (nets : NetworkMap) :
  exists ms t,
    sy_writes (create_minimal_configs self db tmp nets)
    = write_networks self nets ++ ms ++ [t]
    /\ (forall w, In w ms -> fw_dir w = "monitors")
    /\ fw_dir t = "triggers"
    /\ (use_database self = false -> t = mkWrite "triggers" "empty.json" (JObj [])).
Proof.
  unfold create_minimal_configs. destruct (use_database self).
  - destruct (load_monitor_and_trigger_configs_from_db self db) as [out res].
    destruct res as [[monitors triggers]|code]; simpl.
    + destruct (write_triggers_one triggers) as [t [-> Ht]].
      eexists. exists t. split; [reflexivity|]. split; [|split; [exact Ht | discriminate]].
      destruct (is_nil monitors);
        [apply minimal_monitors_dir | apply write_monitors_dir].
    + eexists. eexists. split; [reflexivity|].
      split; [apply minimal_monitors_dir | split; [reflexivity | discriminate]].
  - simpl. eexists. eexists. split; [reflexivity|].
    split; [apply minimal_monitors_dir | split; reflexivity].
Qed.

Lemma list_ascii_app (a b : string) :
  list_ascii_of_string (a ++ b) = list_ascii_of_string a ++ list_ascii_of_string b.
Proof. induction a as [|c a IH]; simpl; [reflexivity | now rewrite IH]. Qed.

Lemma plain_name_app (a b : string) :
  plain_name (a ++ b) = plain_name a && plain_name b.
Proof. unfold plain_name. rewrite list_ascii_app. apply forallb_app. Qed.




(** X17. When the relational backend supplies monitors, the files under
    [monitors/] are one per monitor row, in the order of the query, each named
    after the row's slug; no default monitor is written. *)
Theorem supplied_monitors_are_written
    (self : Runner) (db : Database) (monitors triggers : list obj)
    (tmp : string) (nets : NetworkMap) :
  load_monitors_try self db = Some (monitors, triggers) ->
  monitors <> [] ->
  use_database self = true ->
  monitor_writes (sy_writes (create_minimal_configs self db tmp nets))
  = map monitor_file (selected_monitors self db).
Proof.
  intros Hload Hne Hdb.
  pose proof (load_monitors_try_monitors self db monitors triggers Hload) as Hm.
  unfold create_minimal_configs. rewrite Hdb.
  unfold load_monitor_and_trigger_configs_from_db. rewrite Hload. simpl.
  rewrite (is_nil_false _ Hne).
  rewrite !monitor_writes_app, monitor_writes_networks, monitor_writes_triggers.
  simpl. rewrite app_nil_r.
  unfold monitor_writes. rewrite filter_all.
  - rewrite Hm, map_map. reflexivity.
  - intros w Hw. now rewrite (write_monitors_dir monitors w Hw).
Qed.

Lemma supplied_monitors_are_written_witness :
  monitor_writes (sy_writes (create_minimal_configs runner_db db_slack "tmp" nets_eth))
  = [monitor_file mon_transfers].
Proof.
  refine (supplied_monitors_are_written runner_db db_slack
            [monitor_config mon_transfers]
            [flat_trigger trig_alerts; flat_trigger trig_alerts] "tmp" nets_eth
            eq_refl _ eq_refl).
  discriminate.
Defined.

(** ** ProcessSupervisor: the command, the status and the signals *)

(** X18. The binary is looked for under [target/release], then
    [target/debug], then the working directory, and the command is the first
    of the three paths that exists, as [str] renders it (without the leading
    [./] of the source's literals); the call ends the process, with status
    1, exactly when none of the three exists. *)
Theorem binary_resolution_order
    (self : Runner) (bins : Binaries) (environ : Environ) (config_path : string) :
  let r := snd (build_command self bins environ config_path) in
  (r = Exited 1 <->
   release_exists bins = false /\ debug_exists bins = false /\ cwd_exists bins = false)
  /\ (forall code, r = Exited code -> code = 1)
  /\ (forall cmd env, r = Returned (cmd, env) ->
        cmd = [if release_exists bins then "target/release/openzeppelin-monitor"
               else if debug_exists bins then "target/debug/openzeppelin-monitor"
               else "openzeppelin-monitor"]).
Proof.
  cbv zeta. unfold build_command.
  destruct (release_exists bins), (debug_exists bins), (cwd_exists bins); simpl;
    (split; [split; [intros H; discriminate H || (repeat split; reflexivity)
                    | intros [H1 [H2 H3]]; try discriminate; reflexivity]
            | split; [intros code H; try discriminate; congruence
                     | intros cmd env H; try discriminate; congruence]]).
Qed.

Lemma binary_resolution_order_witness :
  snd (build_command runner_files (mkBinaries false true true) [] "cfg")
  = Returned (["target/debug/openzeppelin-monitor"],
              [("CONFIG_DIR", "cfg"); ("LOG_DATA_DIR", "data"); ("RUST_LOG", "warn")])
  /\ ["target/debug/openzeppelin-monitor"] = ["target/debug/openzeppelin-monitor"].
Proof.
  split; [reflexivity|].
  destruct (binary_resolution_order runner_files (mkBinaries false true true) [] "cfg")
    as [_ [_ H]].
  exact (H ["target/debug/openzeppelin-monitor"]
           [("CONFIG_DIR", "cfg"); ("LOG_DATA_DIR", "data"); ("RUST_LOG", "warn")]
           eq_refl).
Defined.

(** X19. The child's environment holds the configuration directory under
    [CONFIG_DIR], the data directory under [LOG_DATA_DIR] and the log level
    under [RUST_LOG] ([info] when verbose, [warn] otherwise), replacing what
    the runner's own environment had there; every other variable is
    inherited as it is. *)
Theorem child_environment
    (self : Runner) (bins : Binaries) (environ : Environ) (config_path : string)
    (cmd : list string) (env : Environ) :
  snd (build_command self bins environ config_path) = Returned (cmd, env) ->
  dict_get String.eqb "CONFIG_DIR" env = Some config_path
  /\ dict_get String.eqb "LOG_DATA_DIR" env = Some (data_dir self)
  /\ dict_get String.eqb "RUST_LOG" env = Some (if verbose self then "info" else "warn")
  /\ forall k, k <> "CONFIG_DIR" -> k <> "LOG_DATA_DIR" -> k <> "RUST_LOG" ->
       dict_get String.eqb k env = dict_get String.eqb k environ.
Proof.
  unfold build_command.
  destruct (if release_exists bins then _ else _) as [path|]; [|discriminate].
  simpl. intros [= _ <-]. repeat split.
  - rewrite !sget_set_other by discriminate. apply sget_set_same.
  - rewrite sget_set_other by discriminate. apply sget_set_same.
  - apply sget_set_same.
  - intros k H1 H2 H3. now rewrite !sget_set_other by assumption.
Qed.

Lemma child_environment_witness :
  dict_get String.eqb "RUST_LOG"
    [("RUST_LOG", "warn"); ("PATH", "/usr/bin"); ("CONFIG_DIR", "cfg");
     ("LOG_DATA_DIR", "data")] = Some "warn"
  /\ dict_get String.eqb "PATH"
       [("RUST_LOG", "warn"); ("PATH", "/usr/bin"); ("CONFIG_DIR", "cfg");
        ("LOG_DATA_DIR", "data")] = Some "/usr/bin".
Proof.
  destruct (child_environment runner_files (mkBinaries true false false)
              [("RUST_LOG", "trace"); ("PATH", "/usr/bin")] "cfg"
              ["target/release/openzeppelin-monitor"]
              [("RUST_LOG", "warn"); ("PATH", "/usr/bin"); ("CONFIG_DIR", "cfg");
               ("LOG_DATA_DIR", "data")] eq_refl) as [_ [_ [H3 H4]]].
  split; [exact H3|]. rewrite (H4 "PATH"); [reflexivity | | |]; discriminate.
Defined.

Lemma load_exit_code (self : Runner) (db : Database) (dir : option (list NetworkFile))
    (code : Z) :
  snd (load_network_configs self db dir) = Exited code -> code = 1.
Proof.
  unfold load_network_configs, load_network_configs_from_db,
    load_network_configs_from_files.
  destruct (use_database self).
  - destruct (negb (db_connects db) || db_raises db SelNetworks);
      [simpl; congruence|].
    destruct (fold_left _ _ _) as [nets out].
    destruct (is_nil nets); simpl; [congruence | discriminate].
  - destruct dir as [files|]; [|simpl; congruence].
    destruct (fold_left _ _ _) as [nets out].
    destruct (is_nil nets); simpl; [congruence | discriminate].
Qed.

Lemma build_exit_code (self : Runner) (bins : Binaries) (environ : Environ)
    (path : string) (code : Z) :
  snd (build_command self bins environ path) = Exited code -> code = 1.
Proof.
  unfold build_command.
  destruct (if release_exists bins then _ else _); simpl; [discriminate | congruence].
Qed.

Lemma run_without_startup (self : Runner) (w : World) :
  startup self w = None ->
  rr_status (run self w) = 1 /\ rr_signals (run self w) = []
  /\ rr_tracker_out (run self w) = [].
Proof.
  unfold startup, run.
  pose proof (load_exit_code self (w_db w) (w_network_dir w)) as Hl.
  destruct (load_network_configs self (w_db w) (w_network_dir w)) as [out1 [nets|code]].
  - pose proof (build_exit_code self (w_bins w) (w_environ w)
                  (sy_path (create_minimal_configs self (w_db w) (w_tmp w) nets))) as Hb.
    destruct (negb (all_strings (dict_keys nets)));
      [intros _; repeat split; reflexivity|].
    destruct (negb (all_open (w_open_raises w)
                      (sy_writes (create_minimal_configs self (w_db w) (w_tmp w) nets)))).
    { intros _. destruct (perform _ _) as [lines writes]. repeat split; reflexivity. }
    destruct (build_command self (w_bins w) (w_environ w) _) as [out3 [cmd|code]];
      [discriminate|].
    intros _. simpl. now rewrite (Hb code eq_refl).
  - intros _. simpl. now rewrite (Hl code eq_refl).
Qed.

(** X20. The runner ends with status 1 when loading or the search for the
    binary fails, when the child cannot be launched and when supervising
    raises an error; it ends with status 0 when the child exits, whatever its
    code, and when the run is interrupted. *)
Theorem run_exit_status (self : Runner) (w : World) :
  rr_status (run self w) = expected_status self w.
Proof.
  unfold expected_status. destruct (startup self w) as [[pre sy]|] eqn:Hs.
  - rewrite (run_after_startup self w pre sy Hs). unfold supervise.
    destruct (monitor_blocks (verbose self) [] (w_polls w)) as [st tracker_out].
    destruct (w_ending w); reflexivity.
  - exact (proj1 (run_without_startup self w Hs)).
Qed.

(** X21. The runner signals the child only when a launched run is
    interrupted or raises an error: it then sends the termination request,
    and the kill after it only when the child has not exited within the 10
    seconds; in every other run no signal is sent. *)
Theorem run_signals (self : Runner) (w : World) :
  rr_signals (run self w) = expected_signals self w.
Proof.
  unfold expected_signals. destruct (startup self w) as [[pre sy]|] eqn:Hs.
  - rewrite (run_after_startup self w pre sy Hs). unfold supervise.
    destruct (monitor_blocks (verbose self) [] (w_polls w)) as [st tracker_out].
    destruct (w_ending w) as [|code|child|child]; simpl; try reflexivity;
      unfold stop_process; destruct (wait child 10); reflexivity.
  - exact (proj1 (proj2 (run_without_startup self w Hs))).
Qed.

(** X22. When the networks load with string slugs and every file of the
    synthesis can be opened, but no binary is found, the run ends with status
    1 after the synthesis: the configuration files have been written, the
    message about the binary is the last line printed, and neither the
    tracker nor the child was started. *)
Theorem missing_binary_after_synthesis
    (self : Runner) (w : World) (out1 : list Line) (nets : NetworkMap) :
  load_network_configs self (w_db w) (w_network_dir w) = (out1, Returned nets) ->
  all_strings (dict_keys nets) = true ->
  all_open (w_open_raises w)
    (sy_writes (create_minimal_configs self (w_db w) (w_tmp w) nets)) = true ->
  release_exists (w_bins w) = false ->
  debug_exists (w_bins w) = false ->
  cwd_exists (w_bins w) = false ->
  rr_status (run self w) = 1
  /\ rr_writes (run self w)
     = sy_writes (create_minimal_configs self (w_db w) (w_tmp w) nets)
  /\ rr_writes (run self w) <> []
  /\ (exists pre, rr_out (run self w) = pre ++ [LBinaryNotFound])
  /\ rr_tracker_out (run self w) = []
  /\ rr_signals (run self w) = [].
Proof.
  intros Hload Hstr Hopen H1 H2 H3. unfold run, build_command.
  rewrite Hload, Hstr, Hopen, H1, H2, H3. simpl.
  split; [reflexivity|]. split; [reflexivity|]. split; [|split; [|split; reflexivity]].
  - destruct (synthesis_parts self (w_db w) (w_tmp w) nets) as [ms [t [-> _]]].
    intros H. apply (f_equal (@List.length FileWrite)) in H.
    rewrite !length_app in H. simpl in H. lia.
  - exists (LBanner :: (if use_database self then LUsingDatabase else LUsingFiles)
             :: (out1 ++ [LMonitoring (List.length nets)])
                ++ sy_out (create_minimal_configs self (w_db w) (w_tmp w) nets)).
    simpl. do 2 f_equal. rewrite <- !app_assoc. reflexivity.
Qed.

Lemma missing_binary_after_synthesis_witness :
  rr_status (run runner_files world_no_binary) = 1
  /\ rr_writes (run runner_files world_no_binary)
     = [mkWrite "networks" "eth.json"
          (JObj [("slug", JStr "eth"); ("network_type", JStr "EVM")]);
        mkWrite "monitors" "blockwatcher_evm.json" (evm_monitor [JStr "eth"]);
        mkWrite "triggers" "empty.json" (JObj [])].
Proof.
  destruct (missing_binary_after_synthesis runner_files world_no_binary []
              [(JStr "eth", [("slug", JStr "eth"); ("network_type", JStr "EVM")])]
              eq_refl eq_refl eq_refl eq_refl eq_refl eq_refl) as [H1 [H2 _]].
  split; [exact H1 | exact H2].
Defined.

(** ** ConfigSource: the set of references *)

Lemma tm_mem_false (k : json) (tm : TriggerMap) :
  dict_mem key_eqb k tm = false -> forall kv, In kv tm -> key_eqb (fst kv) k = false.
Proof.
  unfold dict_mem. induction tm as [|[k0 v0] r IH]; simpl; [intros _ kv []|].
  destruct (key_eqb k0 k) eqn:E; [discriminate|].
  intros H kv [<- | Hin]; [exact E | now apply IH].
Qed.

Lemma tm_set_fresh (k : json) (v : option obj) (tm : TriggerMap) :
  (forall kv, In kv tm -> key_eqb (fst kv) k = false) ->
  dict_set key_eqb k v tm = tm ++ [(k, v)].
Proof.
  induction tm as [|[k0 v0] r IH]; intros H; simpl; [reflexivity|].
  pose proof (H (k0, v0) (or_introl eq_refl)) as E. simpl in E. rewrite E. f_equal.
  apply IH. intros kv Hin. apply H. now right.
Qed.

Lemma distinct_refs_snoc (l : list json) (k : json) :
  distinct_refs l -> (forall k', In k' l -> key_eqb k' k = false) ->
  distinct_refs (l ++ [k]).
Proof.
  induction l as [|k0 r IH]; simpl; intros Hd Hk.
  - split; [intros k' [] | exact I].
  - destruct Hd as [H0 Hr]. split.
    + intros k' Hin. apply in_app_or in Hin. destruct Hin as [Hin | [<- | []]].
      * now apply H0.
      * apply Hk. now left.
    + apply IH; [exact Hr|]. intros k' Hin. apply Hk. now right.
Qed.

Lemma note_ref_keys (k : json) (tm : TriggerMap) :
  dict_keys (note_ref k tm)
  = if dict_mem key_eqb k tm then dict_keys tm else dict_keys tm ++ [k].
Proof.
  unfold note_ref. destruct (dict_mem key_eqb k tm) eqn:E; [reflexivity|].
  rewrite (tm_set_fresh k None tm (tm_mem_false k tm E)).
  unfold dict_keys. now rewrite map_app.
Qed.

Lemma note_ref_distinct (k : json) (tm : TriggerMap) :
  distinct_refs (dict_keys tm) -> distinct_refs (dict_keys (note_ref k tm)).
Proof.
  intros H. rewrite note_ref_keys. destruct (dict_mem key_eqb k tm) eqn:E; [exact H|].
  apply distinct_refs_snoc; [exact H|].
  intros k' Hin. unfold dict_keys in Hin. apply in_map_iff in Hin.
  destruct Hin as [kv [<- Hin]]. exact (tm_mem_false k tm E kv Hin).
Qed.

Lemma note_ref_mem (k k' : json) (tm : TriggerMap) :
  dict_mem key_eqb k' tm = true \/ (k' = k /\ key_eqb k k = true) ->
  dict_mem key_eqb k' (note_ref k tm) = true.
Proof.
  unfold note_ref. intros [H | [-> Hk]].
  - destruct (dict_mem key_eqb k tm) eqn:E; [exact H|].
    rewrite (tm_set_fresh k None tm (tm_mem_false k tm E)).
    unfold dict_mem in *. induction tm as [|[k0 v0] r IH]; simpl in *; [discriminate|].
    destruct (key_eqb k0 k') eqn:E0; [reflexivity|].
    apply IH; [exact H|].
    destruct (key_eqb k0 k); [discriminate | exact E].
  - destruct (dict_mem key_eqb k tm) eqn:E; [exact E|].
    rewrite (tm_set_fresh k None tm (tm_mem_false k tm E)).
    unfold dict_mem. clear E. induction tm as [|[k0 v0] r IH]; simpl.
    + now rewrite Hk.
    + destruct (key_eqb k0 k); [reflexivity | exact IH].
Qed.

Lemma note_ref_origin (k k' : json) (tm : TriggerMap) :
  In k' (dict_keys (note_ref k tm)) -> In k' (dict_keys tm) \/ k' = k.
Proof.
  rewrite note_ref_keys. destruct (dict_mem key_eqb k tm); [now left|].
  intros H. apply in_app_or in H. destruct H as [H | [<- | []]]; [now left | now right].
Qed.

Lemma collect_ref_cases (tm tm' : TriggerMap) (r : json) :
  collect_ref tm r = Some tm' ->
  match ref_key r with
  | Some k => hashable k = true /\ tm' = note_ref k tm
  | None => tm' = tm
  end.
Proof.
  unfold collect_ref, ref_key. destruct r as [| | |s|l|o].
  - intros H. injection H as H. now subst.
  - intros H. injection H as H. now subst.
  - intros H. injection H as H. now subst.
  - intros H. injection H as H. subst. split; reflexivity.
  - intros H. injection H as H. now subst.
  - destruct (oget "id" o) as [i|].
    + destruct (hashable i); [|discriminate].
      intros H. injection H as H. subst. split; reflexivity.
    + intros H. injection H as H. now subst.
Qed.

Lemma collect_refs_keys (refs : list json) :
  forall tm tm', collect_refs tm refs = Some tm' ->
  (distinct_refs (dict_keys tm) -> distinct_refs (dict_keys tm'))
  /\ (forall k, In k (dict_keys tm') ->
        In k (dict_keys tm) \/ exists r, In r refs /\ ref_key r = Some k)
  /\ (forall k, dict_mem key_eqb k tm = true
                \/ (exists r, In r refs /\ ref_key r = Some k) ->
                dict_mem key_eqb k tm' = true).
Proof.
  induction refs as [|r refs IH]; intros tm tm' H; simpl in H.
  - injection H as <-. split; [auto|]. split; [now left|].
    intros k [Hk | [r [[] _]]]. exact Hk.
  - destruct (collect_ref tm r) as [tm1|] eqn:E; [|discriminate]. simpl in H.
    destruct (IH _ _ H) as [H1 [H2 H3]].
    pose proof (collect_ref_cases tm tm1 r E) as Hc.
    destruct (ref_key r) as [kr|] eqn:Hr.
    + destruct Hc as [Hh ->]. split; [|split].
      * intros Hd. apply H1. now apply note_ref_distinct.
      * intros k Hk. destruct (H2 k Hk) as [Hk' | [r' [Hin Hr']]].
        -- destruct (note_ref_origin kr k tm Hk') as [Hk'' | ->]; [now left|].
           right. exists r. split; [now left | exact Hr].
        -- right. exists r'. split; [now right | exact Hr'].
      * intros k [Hk | [r' [[<- | Hin] Hr']]].
        -- apply H3. left. apply note_ref_mem. now left.
        -- apply H3. left. apply note_ref_mem. right.
           rewrite Hr in Hr'. injection Hr' as ->.
           split; [reflexivity | now apply key_eqb_refl].
        -- apply H3. right. now exists r'.
    + subst tm1. split; [exact H1|]. split.
      * intros k Hk. destruct (H2 k Hk) as [Hk' | [r' [Hin Hr']]]; [now left|].
        right. exists r'. split; [now right | exact Hr'].
      * intros k [Hk | [r' [[<- | Hin] Hr']]].
        -- apply H3. now left.
        -- congruence.
        -- apply H3. right. now exists r'.
Qed.

(** X23. Collecting a list of trigger references into an empty working
    set keeps the strings and the [id]s of objects, each once: no two
    collected keys are equal as keys, every one comes from a reference, and
    every reference is among them; other entries (numbers, objects without
    [id]) are left out. *)
Theorem trigger_references_deduplicated (refs : list json) (tm : TriggerMap) :
  collect_refs [] refs = Some tm ->
  distinct_refs (dict_keys tm)
  /\ (forall k, In k (dict_keys tm) -> exists r, In r refs /\ ref_key r = Some k)
  /\ (forall r k, In r refs -> ref_key r = Some k -> dict_mem key_eqb k tm = true).
Proof.
  intros H. destruct (collect_refs_keys refs [] tm H) as [H1 [H2 H3]].
  split; [now apply H1|]. split.
  - intros k Hk. destruct (H2 k Hk) as [[] | Hr]. exact Hr.
  - intros r k Hin Hr. apply H3. right. now exists r.
Qed.

Lemma trigger_references_deduplicated_witness :
  collect_refs [] [JStr "alerts"; JObj [("id", JStr "7f1e")]; JStr "alerts"; JNum 4]
  = Some [(JStr "alerts", None); (JStr "7f1e", None)]
  /\ distinct_refs [JStr "alerts"; JStr "7f1e"].
Proof.
  split; [reflexivity|].
  exact (proj1 (trigger_references_deduplicated
                  [JStr "alerts"; JObj [("id", JStr "7f1e")]; JStr "alerts"; JNum 4]
                  [(JStr "alerts", None); (JStr "7f1e", None)] eq_refl)).
Defined.

(** ** File backend and synthesis together *)

(** X24. With the file backend, an empty selection, distinct string
    slugs without path separator, no store-blocks option and no [open] that
    raises, the run writes every network file that could be read back with
    the content it was read with, as [<slug>.json] directly in [networks/]. *)
Theorem file_configs_pass_through
    (self : Runner) (w : World) (files : list NetworkFile) :
  let entries := present (map file_entry files) in
  use_database self = false ->
  w_network_dir w = Some files ->
  networks self = [] ->
  store_blocks self = false ->
  entries <> [] ->
  distinct_keys entries ->
  all_strings (dict_keys entries) = true ->
  (forall kv, In kv entries -> plain_name (py_str (fst kv)) = true) ->
  all_open (w_open_raises w)
    (sy_writes (create_minimal_configs self (w_db w) (w_tmp w) entries)) = true ->
  (exists rest, rr_writes (run self w) = map network_file entries ++ rest)
  /\ forall kv, In kv entries -> direct_child "networks" (network_file kv).
Proof.
  cbv zeta. intros Hdb Hdir Hsel Hsb Hne Hd Hstr Hplain Hopen. split.
  - destruct (load_files_contract self files) as [_ [_ H]].
    destruct (H Hsel Hne Hd) as [Hres _].
    assert (Hw : write_networks self (present (map file_entry files))
                 = map network_file (present (map file_entry files))).
    { unfold write_networks, network_file, network_copy. now rewrite Hsb. }
    unfold run, load_network_configs. rewrite Hdb, Hdir.
    destruct (load_network_configs_from_files self (Some files)) as [out1 res].
    simpl in Hres. subst res. rewrite Hstr, Hopen. simpl.
    unfold create_minimal_configs. rewrite Hdb. simpl sy_writes. rewrite Hw.
    destruct (build_command self (w_bins w) (w_environ w) _) as [out3 [cmd|code]].
    + destruct (supervise self w _) as [[[status out4] tracker_out] signals].
      simpl. eexists. reflexivity.
    + simpl. eexists. reflexivity.
  - intros kv Hkv. split; [reflexivity|]. unfold network_file. simpl.
    rewrite plain_name_app, (Hplain kv Hkv). reflexivity.
Qed.

Lemma file_configs_pass_through_witness :
  exists rest,
    rr_writes (run runner_files
                 (mkWorld db_empty (Some files_broken) "/tmp/blockwatcher_x"
                    (fun _ _ => false) (mkBinaries true false false) [] [] []
                    (ChildExits 0)))
    = map network_file (present (map file_entry files_broken)) ++ rest.
Proof.
  refine (proj1 (file_configs_pass_through runner_files
                   (mkWorld db_empty (Some files_broken) "/tmp/blockwatcher_x"
                      (fun _ _ => false) (mkBinaries true false false) [] [] []
                      (ChildExits 0))
                   files_broken eq_refl eq_refl eq_refl eq_refl _ _ eq_refl _ eq_refl)).
  - discriminate.
  - split; [intros kv' [] | exact I].
  - intros kv [<- | []]. reflexivity.
Defined.

(** ** The synthesis step by step, and the exceptions that end a run *)

Lemma puts_app (a b : list Step) : puts (a ++ b) = puts a ++ puts b.
Proof.
  induction a as [|[l|f] a IH]; simpl; [reflexivity | exact IH | now rewrite IH].
Qed.

Lemma says_app (a b : list Step) : says (a ++ b) = says a ++ says b.
Proof.
  induction a as [|[l|f] a IH]; simpl; [reflexivity | now rewrite IH | exact IH].
Qed.

Lemma puts_map_Put (ws : list FileWrite) : puts (map Put ws) = ws.
Proof. induction ws as [|f ws IH]; simpl; [reflexivity | now rewrite IH]. Qed.

Lemma says_map_Put (ws : list FileWrite) : says (map Put ws) = [].
Proof. induction ws as [|f ws IH]; simpl; [reflexivity | exact IH]. Qed.

Lemma puts_map_Say (ls : list Line) : puts (map Say ls) = [].
Proof. induction ls as [|l ls IH]; simpl; [reflexivity | exact IH]. Qed.

Lemma says_map_Say (ls : list Line) : says (map Say ls) = ls.
Proof. induction ls as [|l ls IH]; simpl; [reflexivity | now rewrite IH]. Qed.

(** The steps are those of [create_minimal_configs]. *)
Lemma synthesis_steps_agree (self : Runner) (db : Database) (tmp : string)
    (nets : NetworkMap) :
  puts (synthesis_steps self db nets) = sy_writes (create_minimal_configs self db tmp nets)
  /\ says (synthesis_steps self db nets) = sy_out (create_minimal_configs self db tmp nets).
Proof.
  unfold synthesis_steps, create_minimal_configs. destruct (use_database self).
  - destruct (load_monitor_and_trigger_configs_from_db self db) as [out res].
    destruct res as [[monitors triggers]|code]; simpl sy_writes; simpl sy_out;
      rewrite ?puts_app, ?says_app, ?puts_map_Put, ?says_map_Put,
        ?puts_map_Say, ?says_map_Say.
    + destruct (verbose self), (is_nil monitors); simpl;
        rewrite ?puts_map_Put, ?says_map_Put, ?app_nil_r;
        repeat (rewrite <- app_assoc; simpl); split; reflexivity.
    + destruct (verbose self); simpl;
        rewrite ?puts_map_Put, ?says_map_Put, ?app_nil_r;
        repeat (rewrite <- app_assoc; simpl); split; reflexivity.
  - simpl sy_writes. simpl sy_out.
    rewrite ?puts_app, ?says_app, ?puts_map_Put, ?says_map_Put.
    destruct (verbose self); simpl; rewrite ?app_nil_r; split; reflexivity.
Qed.

Lemma perform_all (raises : string -> string -> bool) (steps : list Step) :
  all_open raises (puts steps) = true ->
  perform raises steps = (says steps, puts steps).
Proof.
  induction steps as [|[l|f] steps IH]; simpl; intros H; [reflexivity | |].
  - now rewrite (IH H).
  - apply andb_true_iff in H. destruct H as [Hf H].
    apply negb_true_iff in Hf. rewrite Hf. now rewrite (IH H).
Qed.

Lemma perform_stops (raises : string -> string -> bool) (steps : list Step) :
  all_open raises (puts steps) = false ->
  exists f rest,
    puts steps = snd (perform raises steps) ++ f :: rest
    /\ raises (fw_dir f) (fw_name f) = true
    /\ all_open raises (snd (perform raises steps)) = true.
Proof.
  induction steps as [|[l|f] steps IH]; simpl; intros H; [discriminate | |].
  - destruct (IH H) as [f [rest [H1 [H2 H3]]]].
    destruct (perform raises steps) as [lines writes]. simpl in *.
    now exists f, rest.
  - destruct (raises (fw_dir f) (fw_name f)) eqn:Hf.
    + exists f, (puts steps). repeat split. exact Hf.
    + simpl in H. destruct (IH H) as [g [rest [H1 [H2 H3]]]].
      destruct (perform raises steps) as [lines writes]. simpl in *.
      exists g, rest. split; [now rewrite H1|]. split; [exact H2|].
      now rewrite Hf.
Qed.

(** X25. Two exceptions end a run before the child is launched, with
    status 1 and nothing signalled or tracked. A loaded slug that is not a
    string ends it before the line about the networks is printed and before
    anything is written. An [open] of the synthesis that raises ends it with
    exactly the files before that one written. *)
Theorem run_stops_on_exception
    (self : Runner) (w : World) (out1 : list Line) (nets : NetworkMap) :
  load_network_configs self (w_db w) (w_network_dir w) = (out1, Returned nets) ->
  let sy := create_minimal_configs self (w_db w) (w_tmp w) nets in
  let r := run self w in
  (all_strings (dict_keys nets) = false ->
     rr_status r = 1 /\ rr_writes r = [] /\ rr_signals r = [] /\ rr_tracker_out r = []
     /\ rr_out r
        = [LBanner; if use_database self then LUsingDatabase else LUsingFiles] ++ out1)
  /\ (all_strings (dict_keys nets) = true ->
      all_open (w_open_raises w) (sy_writes sy) = false ->
      rr_status r = 1 /\ rr_signals r = [] /\ rr_tracker_out r = []
      /\ exists f rest,
           sy_writes sy = rr_writes r ++ f :: rest
           /\ w_open_raises w (fw_dir f) (fw_name f) = true
           /\ all_open (w_open_raises w) (rr_writes r) = true).
Proof.
  intros Hload. cbv zeta. unfold run. rewrite Hload. split.
  - intros Hs. rewrite Hs. simpl. repeat split.
  - intros Hs Ho. rewrite Hs, Ho. simpl.
    destruct (synthesis_steps_agree self (w_db w) (w_tmp w) nets) as [Hp _].
    rewrite <- Hp in Ho.
    destruct (perform_stops (w_open_raises w) _ Ho) as [f [rest [H1 [H2 H3]]]].
    rewrite <- Hp.
    destruct (perform (w_open_raises w) (synthesis_steps self (w_db w) nets))
      as [lines writes].
    simpl in *. repeat split. now exists f, rest.
Qed.

Lemma run_stops_on_exception_witness :
  rr_status (run runner_files world_number) = 1
  /\ rr_writes (run runner_files world_number) = []
  /\ rr_writes (run runner_files world_no_monitors_dir)
     = [mkWrite "networks" "eth.json"
          (JObj [("slug", JStr "eth"); ("network_type", JStr "EVM")])].
Proof.
  destruct (run_stops_on_exception runner_files world_number []
              [(JNum 7, [("slug", JNum 7); ("network_type", JStr "EVM")])] eq_refl)
    as [H _].
  destruct (H eq_refl) as [H1 [H2 _]].
  split; [exact H1|]. split; [exact H2|]. reflexivity.
Defined.
